(** * Stock forecast dashboard ([app.py]): a shallow embedding

    The script fetches a daily price frame, runs an ADF stationarity test on
    the closing prices, fits an ARIMA(5,0,0) model, forecasts
    [forecast_days] steps and plots the result.  Everything numerical is
    done by external libraries (yfinance, statsmodels); they appear here as
    an interface whose operations may raise.  The calendar arithmetic of
    [pd.date_range(..., freq="B")] is integer arithmetic and is modelled in
    full. *)

From Stdlib Require Import ZArith String Bool Lia Floats.
From Stdlib Require Import List Sorted.
From Equations Require Import Equations.
Import ListNotations.

Local Open Scope Z_scope.

(** ** Python exceptions and fallible results *)

Record exn : Type := mk_exn { exn_class : string; exn_msg : string }.

Inductive result (A : Type) : Type :=
| Ok (a : A)
| Raise (e : exn).
Arguments Ok {A} a.
Arguments Raise {A} e.

Definition ValueError (msg : string) : exn := mk_exn "ValueError" msg.
Definition IndexError (msg : string) : exn := mk_exn "IndexError" msg.

(** ** Calendar

    A date is the number of days since 1970-01-01 (a Thursday).
    [weekday] follows Python's [date.weekday()]: Monday is 0, Sunday is 6. *)

Module Calendar.

Definition date := Z.

Definition weekday (d : date) : Z := (d + 3) mod 7.

(** [BusinessDay.is_on_offset]: Monday to Friday. *)
Definition is_on_offset (d : date) : bool := weekday d <? 5.

(** [BusinessDay._adjust_ndays] for an offset of [n] business days applied
    on a day whose weekday is [wday], after [weeks] whole weeks were set
    aside. *)
Definition adjust_ndays (n wday weeks : Z) : Z :=
  let n := if (n <=? 0) && (4 <? wday) then n + 1 else n in
  let n := n - 5 * weeks in
  if (n =? 0) && (4 <? wday) then 4 - wday
  else if 4 <? wday then (7 - wday) + (n - 1)
  else if wday + n <=? 4 then n
  else n + 2.

(** [BusinessDay(n)._apply(d)]: [d + n * BDay]. *)
Definition bday_apply (n : Z) (d : date) : date :=
  let weeks := n / 5 in
  let days := adjust_ndays n (weekday d) weeks in
  d + (7 * weeks + days).

(** [BusinessDay.rollforward]. *)
Definition rollforward (d : date) : date :=
  if is_on_offset d then d else bday_apply 1 d.

(** The generator loop of [pandas._generate_range] for a non-negative
    offset:
<<
    cur = start
    while cur <= end:
        yield cur
        if cur == end: break
        next_date = offset._apply(cur)
        if next_date <= cur: raise ValueError(...)
        cur = next_date
>> *)
Equations? generate_loop (cur end_ : date) : result (list date)
  by wf (Z.to_nat (end_ - cur + 1)) lt :=
generate_loop cur end_ with Z_le_dec cur end_ => {
  | right _ := Ok [];
  | left _ with Z.eq_dec cur end_ => {
    | left _ := Ok [cur];
    | right _ with Z_le_dec (bday_apply 1 cur) cur => {
      | left _ :=
          Raise (ValueError "Offset <BusinessDay> did not increment date");
      | right _ with generate_loop (bday_apply 1 cur) end_ => {
        | Ok l := Ok (cur :: l);
        | Raise e := Raise e } } } }.
Proof. lia. Qed.

(** [pd.date_range(start=start, periods=periods, freq="B")]: the start is
    rolled forward onto a business day, the end is [periods - 1] business
    days later ([end = start + (periods - 1) * offset]), and the loop above
    generates the days from start to end. *)
Definition date_range (start : date) (periods : Z) : result (list date) :=
  let start := rollforward start in
  let end_ := bday_apply (periods - 1) start in
  generate_loop start end_.

(** [n] consecutive business days, the first one being [d]. *)
Fixpoint bdays_from (n : nat) (d : date) : list date :=
  match n with
  | O => []
  | S k => d :: bdays_from k (bday_apply 1 d)
  end.

(** [dt.date(y, m, d)] as a day count (the proleptic Gregorian calendar,
    counted from 1970-01-01). *)
Definition ymd (y m d : Z) : date :=
  let y := if m <=? 2 then y - 1 else y in
  let era := y / 400 in
  let yoe := y - era * 400 in
  let doy := (153 * (if 2 <? m then m - 3 else m + 9) + 2) / 5 + d - 1 in
  let doe := yoe * 365 + yoe / 4 - yoe / 100 + doy in
  era * 146097 + doe - 719468.

End Calendar.

(** ** pandas frames and series *)

Local Open Scope string_scope.
Local Open Scope list_scope.
Local Open Scope Z_scope.
Set Warnings "-inexact-float".

Module Pandas.

Import Calendar.

(** One row of the OHLCV columns of the frame [yf.download] returns. *)
Record Bar : Type := mk_Bar {
  Open : float;
  High : float;
  Low : float;
  Close : float;
  Volume : float
}.

(** The downloaded frame: a [DatetimeIndex] named "Date" and the OHLCV
    columns, one entry per row. *)
Definition DataFrame := list (date * Bar).

(** [df.empty] *)
Definition empty (df : DataFrame) : bool :=
  match df with
  | [] => true
  | _ :: _ => false
  end.

(** The frame after [df.reset_index()]: the old index is the column "Date",
    and the row at position [i] carries the label [i] of the new
    [RangeIndex]. *)
Record Row : Type := mk_Row { Date : date; bar : Bar }.
Definition FlatFrame := list Row.

Definition reset_index (df : DataFrame) : FlatFrame :=
  map (fun r => mk_Row (fst r) (snd r)) df.

(** A series: its values with their index labels.  Every series of the
    script is a column of a [FlatFrame] (or derived from one), so labels are
    positions. *)
Definition Series (A : Type) := list (nat * A).

Definition values {A} (s : Series A) : list A := map snd s.

Definition RangeIndex (n : nat) : list nat := seq 0 n.

(** [df[name]] on a flat frame, for a column read by [get]. *)
Definition column {A} (get : Row -> A) (df : FlatFrame) : Series A :=
  combine (RangeIndex (length df)) (map get df).

(** [series.dropna()]: NaN is the missing value of a float column. *)
Definition dropna (s : Series float) : Series float :=
  filter (fun e => negb (PrimFloat.is_nan (snd e))) s.

(** [series.iloc[-1]] *)
Definition iloc_last {A} (s : Series A) : result A :=
  match rev s with
  | [] => Raise (IndexError "single positional indexer is out-of-bounds")
  | e :: _ => Ok (snd e)
  end.

End Pandas.

(** ** plotly figures *)

Module Plotly.

Import Calendar.

Record Line : Type := mk_Line {
  line_color : string; line_width : Z; line_dash : option string
}.

Record Scatter : Type := mk_Scatter {
  x : list date;
  y : list float;
  mode : string;
  name : string;
  line : Line;
  marker_size : option Z
}.

Record Legend : Type := mk_Legend {
  legend_title : string; orientation : string;
  yanchor : string; legend_y : float; xanchor : string; legend_x : float
}.

Record Layout : Type := mk_Layout {
  title : string;
  title_x : float;
  template : string;
  xaxis_title : string;
  yaxis_title : string;
  hovermode : string;
  legend : Legend;
  plot_bgcolor : string;
  paper_bgcolor : string;
  margin : Z * Z * Z * Z   (* l, r, t, b *)
}.

Record Figure : Type := mk_Figure { data : list Scatter; layout : option Layout }.

(** [go.Figure()] *)
Definition empty_figure : Figure := mk_Figure [] None.

Definition add_trace (fig : Figure) (t : Scatter) : Figure :=
  mk_Figure (data fig ++ [t]) (layout fig).

Definition update_layout (fig : Figure) (l : Layout) : Figure :=
  mk_Figure (data fig) (Some l).

End Plotly.

(** ** External libraries

    yfinance and statsmodels are not part of the repository.  Their
    operations are functions of their arguments that return a value or
    raise. *)

Import Calendar Pandas Plotly.

(** The tuple [adfuller] returns: test statistic, p-value, lags used,
    observations used, critical values by level, best information
    criterion.  [result[1]] is the p-value. *)
Record adf_tuple : Type := mk_adf {
  adfstat : float;
  pvalue : float;
  usedlag : Z;
  nobs : Z;
  critvalues : list (string * float);
  icbest : float
}.

Class Provider : Type := {
  (** [yf.download(ticker, start=..., end=...)] *)
  download : string -> date -> date -> result DataFrame
}.

Class Statsmodels : Type := {
  Model : Type;
  Results : Type;
  (** [adfuller(x)] *)
  adfuller : Series float -> result adf_tuple;
  (** [ARIMA(endog, order=...)] *)
  ARIMA : Series float -> Z * Z * Z -> result Model;
  (** [model.fit()] *)
  fit : Model -> result Results;
  (** [model_fit.forecast(steps=...)] *)
  forecast : Results -> Z -> result (Series float)
}.

(** What statsmodels documents for [forecast]: for a positive number of
    steps it returns that many out-of-sample predictions. *)
Definition forecast_contract (sm : Statsmodels) : Prop :=
  forall (r : Results) (steps : Z),
    1 <= steps ->
    exists fc, forecast r steps = Ok fc /\ Z.of_nat (length fc) = steps.

(** ** Calls the script makes, in the order it makes them *)

Inductive call : Type :=
| st_set_page_config (page_title layout_ page_icon : string)
| st_markdown (body : string) (unsafe_allow_html : bool)
| st_columns (spec : list Z)
| st_text_input (col : nat) (label value : string)
| st_date_input (col : nat) (label : string) (value : date)
| st_number_input (col : nat) (label : string) (min_value max_value value : Z)
| dt_date_today
| st_button (label type_ : string)
| st_spinner (text : string)
| st_error (body : string)
| st_subheader (body : string)
| st_info (body : string)
| st_plotly_chart (fig : Figure) (use_container_width : bool)
| st_dataframe (df : FlatFrame)
| yf_download (ticker : string) (start end_ : date)
| call_adfuller (x : Series float)
| call_ARIMA (endog : Series float) (order : Z * Z * Z)
| call_fit
| call_forecast (steps : Z)
| pd_date_range (start : date) (periods : Z) (freq : string).

(** A computation of the script: the calls made so far, and either a value
    or the exception that stopped it. *)
Definition M (A : Type) : Type := (list call * result A)%type.

Definition ret {A} (a : A) : M A := ([], Ok a).

Definition bind {A B} (m : M A) (f : A -> M B) : M B :=
  match m with
  | (t, Ok a) => let (t', r) := f a in (t ++ t', r)
  | (t, Raise e) => (t, Raise e)
  end.

(** Make the call [c], whose outcome is [r]. *)
Definition perform {A} (c : call) (r : result A) : M A := ([c], r).

(** A call that returns nothing and does not raise. *)
Definition emit (c : call) : M unit := perform c (Ok tt).

Notation "x <- m ;; k" := (bind m (fun x => k))
  (at level 61, m at next level, right associativity).
Notation "m ;;; k" := (bind m (fun _ => k))
  (at level 61, right associativity).

Definition trace {A} (m : M A) : list call := fst m.
Definition outcome {A} (m : M A) : result A := snd m.

Definition lift {A} (r : result A) : M A := ([], r).

(** ** The script *)

Definition dq : string := String (Ascii.ascii_of_nat 34) EmptyString.
Definition nl : string := String (Ascii.ascii_of_nat 10) EmptyString.

Definition TITLE_HTML : string :=
  (nl ++ "    <h1 style=" ++ dq ++ "text-align:center; color:#4A90E2;" ++ dq
      ++ ">" ++ nl
   ++ "        📈 Animated Stock Price Forecast Dashboard" ++ nl
   ++ "    </h1>" ++ nl
   ++ "    <p style=" ++ dq ++ "text-align:center; font-size:18px;" ++ dq
      ++ ">" ++ nl
   ++ "        Enter any stock ticker to view historical data and ARIMA "
   ++ "forecast with beautiful animations." ++ nl
   ++ "    </p>" ++ nl
   ++ "    ")%string.

Definition STATIONARY : string :=
  "✔️ The series is *Stationary* (ADF p-value < 0.05)".
Definition NOT_STATIONARY : string :=
  "❌ The series is *Not Stationary* (ADF p-value >= 0.05)".
Definition NO_DATA : string := "⚠️ No data found. Check stock symbol.".

(** What the user has entered when the script runs, and the day it runs. *)
Record Session : Type := mk_Session {
  ticker_text : string;
  start_date_picked : date;
  forecast_days_value : Z;
  button_clicked : bool;
  today : date
}.

Definition close_of (r : Row) : float := Close (bar r).

Section Script.

Context {yf : Provider} {sm : Statsmodels}.

(** [check_stationarity] (lines 52-58) *)
Definition check_stationarity (series : Series float) : M string :=
  result <- perform (call_adfuller (dropna series))
                    (adfuller (dropna series)) ;;
  let p_value := pvalue result in
  if (p_value <? 0.05)%float then ret STATIONARY else ret NOT_STATIONARY.

(** The model and its forecast (lines 81-86) *)
Definition train_and_forecast (close : Series float) (forecast_days : Z)
  : M (Series float) :=
  model_fit <- (emit (st_spinner "Training ARIMA model...") ;;;
                model <- perform (call_ARIMA close (5, 0, 0))
                                 (ARIMA close (5, 0, 0)) ;;
                perform call_fit (fit model)) ;;
  perform (call_forecast forecast_days) (forecast model_fit forecast_days).

(** The forecast dates (lines 89-93) *)
Definition make_forecast_dates (df : FlatFrame) (forecast_days : Z)
  : M (list date) :=
  start <- lift (iloc_last (column Date df)) ;;
  idx <- perform (pd_date_range start (forecast_days + 1) "B")
                 (date_range start (forecast_days + 1)) ;;
  ret (tl idx).

(** The chart (lines 99-143) *)
Definition build_figure (ticker : string) (df : FlatFrame)
    (forecast_dates : list date) (forecast : Series float) : Figure :=
  let fig := empty_figure in
  let fig := add_trace fig
    (mk_Scatter (values (column Date df)) (values (column close_of df))
                "lines" "Actual Price" (mk_Line "#00A8E8" 3 None) None) in
  let fig := add_trace fig
    (mk_Scatter forecast_dates (values forecast)
                "lines+markers" "Forecast"
                (mk_Line "#FF4C61" 3 (Some "dash")) (Some 6)) in
  update_layout fig
    (mk_Layout (ticker ++ " — Actual vs Forecasted Prices")%string
               0.5 "plotly_dark" "Date" "Close Price" "x"
               (mk_Legend "Legend" "h" "bottom" 1.02 "center" 0.5)
               "rgba(10,10,30,1)" "rgba(0,0,0,0)" (40, 40, 80, 40)).

(** The [else] branch of [if df.empty] (lines 74-149) *)
Definition present (ticker : string) (forecast_days : Z) (df : DataFrame)
  : M unit :=
  let df := reset_index df in
  emit (st_subheader "📌 Stationarity Test (ADF)") ;;;
  verdict <- check_stationarity (column close_of df) ;;
  emit (st_info verdict) ;;;
  forecast <- train_and_forecast (column close_of df) forecast_days ;;
  forecast_dates <- make_forecast_dates df forecast_days ;;
  emit (st_plotly_chart (build_figure ticker df forecast_dates forecast)
                        true) ;;;
  emit (st_subheader "📄 Data Used") ;;;
  emit (st_dataframe df).

(** The body of [if st.button(...)] (lines 65-149) *)
Definition generate (ticker : string) (start_date end_date : date)
    (forecast_days : Z) : M unit :=
  df <- (emit (st_spinner "Fetching data... please wait ⏳") ;;;
         perform (yf_download ticker start_date end_date)
                 (download ticker start_date end_date)) ;;
  if empty df then emit (st_error NO_DATA)
  else present ticker forecast_days df.

(** The whole script, run once *)
Definition main (s : Session) : M unit :=
  emit (st_set_page_config "Stock Forecast Dashboard" "wide" "📈") ;;;
  emit (st_markdown TITLE_HTML true) ;;;
  emit (st_columns [2; 2; 1]) ;;;
  ticker <- perform (st_text_input 0 "Enter Stock Symbol:" "1299.HK")
                    (Ok (ticker_text s)) ;;
  start_date <- perform (st_date_input 1 "Start Date" (ymd 2024 1 1))
                        (Ok (start_date_picked s)) ;;
  forecast_days <- perform (st_number_input 2 "Forecast Days" 5 60 10)
                           (Ok (forecast_days_value s)) ;;
  end_date <- perform dt_date_today (Ok (today s)) ;;
  clicked <- perform (st_button "Generate Animated Forecast 🚀" "primary")
                     (Ok (button_clicked s)) ;;
  if clicked then generate ticker start_date end_date forecast_days
  else ret tt.

End Script.

(** ** Observations on a run *)

Definition is_st_error (c : call) : bool :=
  match c with st_error _ => true | _ => false end.

(** The calls of the pipeline after the fetch: stationarity check, model
    fit, forecast, and the rendering of verdict, chart and table. *)
Definition is_pipeline_call (c : call) : bool :=
  match c with
  | call_adfuller _ | call_ARIMA _ _ | call_fit | call_forecast _
  | pd_date_range _ _ _
  | st_subheader _ | st_info _ | st_plotly_chart _ _ | st_dataframe _ => true
  | _ => false
  end.

Definition is_fit_call (c : call) : bool :=
  match c with call_fit => true | _ => false end.

(** What the run has put on the page for the user to see. *)
Definition is_output (c : call) : bool :=
  match c with
  | st_error _ | st_subheader _ | st_info _
  | st_plotly_chart _ _ | st_dataframe _ => true
  | _ => false
  end.

Definition is_chart_or_table (c : call) : bool :=
  match c with
  | st_plotly_chart _ _ | st_dataframe _ => true
  | _ => false
  end.

(** Calls into yfinance and statsmodels. *)
Definition is_library_call (c : call) : bool :=
  match c with
  | yf_download _ _ _ | call_adfuller _ | call_ARIMA _ _ | call_fit
  | call_forecast _ => true
  | _ => false
  end.

Definition ADF_HEADING : call := st_subheader "📌 Stationarity Test (ADF)".

(** The calls the script makes after [model.fit()] has returned. *)
Definition follows_fit (c : call) : bool :=
  match c with
  | call_forecast _ | pd_date_range _ _ _
  | st_plotly_chart _ _ | st_dataframe _ => true
  | _ => false
  end.

(** The figures passed to [st.plotly_chart]. *)
Fixpoint charts (t : list call) : list Figure :=
  match t with
  | [] => []
  | st_plotly_chart fig _ :: t' => fig :: charts t'
  | _ :: t' => charts t'
  end.

(** The second trace of a figure is the forecast: its dates and values. *)
Definition forecast_trace (fig : Figure) : option Scatter :=
  nth_error (data fig) 1.

Definition forecast_values {A} (run : M A) : option (list float) :=
  match charts (trace run) with
  | fig :: _ => option_map y (forecast_trace fig)
  | [] => None
  end.

Definition forecast_dates {A} (run : M A) : option (list date) :=
  match charts (trace run) with
  | fig :: _ => option_map x (forecast_trace fig)
  | [] => None
  end.

(** The orders of the models the run constructs, with the series they are
    given. *)
Fixpoint models_built (t : list call) : list (Series float * (Z * Z * Z)) :=
  match t with
  | [] => []
  | call_ARIMA endog order :: t' => (endog, order) :: models_built t'
  | _ :: t' => models_built t'
  end.

(** The calls every run makes before the button is looked at (lines 12-63). *)
Definition prelude : list call :=
  [ st_set_page_config "Stock Forecast Dashboard" "wide" "📈";
    st_markdown TITLE_HTML true;
    st_columns [2; 2; 1];
    st_text_input 0 "Enter Stock Symbol:" "1299.HK";
    st_date_input 1 "Start Date" (ymd 2024 1 1);
    st_number_input 2 "Forecast Days" 5 60 10;
    dt_date_today;
    st_button "Generate Animated Forecast 🚀" "primary" ].

(** The fetch of a run (lines 65-68). *)
Definition fetch_calls (s : Session) : list call :=
  [ st_spinner "Fetching data... please wait ⏳";
    yf_download (ticker_text s) (start_date_picked s) (today s) ].

(** What the provider answers to the query of session [s]. *)
Definition fetched {yf : Provider} (s : Session) : result DataFrame :=
  download (ticker_text s) (start_date_picked s) (today s).

(** The closing prices of a downloaded frame, as the script reads them. *)
Definition closes (df : DataFrame) : Series float :=
  column close_of (reset_index df).

(** The message [check_stationarity] returns for a test result. *)
Definition verdict (r : adf_tuple) : string :=
  if (pvalue r <? 0.05)%float then STATIONARY else NOT_STATIONARY.

(** The date of the last row of a downloaded frame. *)
Definition last_date (df : DataFrame) : option date :=
  option_map fst (hd_error (rev df)).

(** The [n] business days after the day [start] is rolled forward to. *)
Definition next_bdays (start : date) (n : Z) : list date :=
  bdays_from (Z.to_nat n) (bday_apply 1 (rollforward start)).

(** The calls of a run from the stationarity check to the model
    constructor, when the ADF test returned [r]. *)
Definition calls_to_model (df : DataFrame) (r : adf_tuple) : list call :=
  [ ADF_HEADING;
    call_adfuller (dropna (closes df));
    st_info (verdict r);
    st_spinner "Training ARIMA model...";
    call_ARIMA (closes df) (5, 0, 0) ].

(** The calls that render chart and table. *)
Definition render_calls (ticker : string) (df : DataFrame)
    (dates : list date) (fc : Series float) : list call :=
  [ st_plotly_chart (build_figure ticker (reset_index df) dates fc) true;
    st_subheader "📄 Data Used";
    st_dataframe (reset_index df) ].

(** ** Stand-ins for the external libraries

    Small executable libraries on which runs of the script can be
    evaluated.  The ADF test of the stand-in makes the checks statsmodels'
    [adfuller] makes on its input, in its order and with its messages; the
    test statistic and the p-value, which statsmodels computes by regression
    and from MacKinnon's tables, are not computed: the p-value is a parameter
    of the stand-in. *)

Module Sample.

(** A provider that answers every query with the same frame. *)
Definition provider (df : DataFrame) : Provider :=
  {| download := fun _ _ _ => Ok df |}.

Definition last_value (s : Series float) : float :=
  match rev s with
  | [] => 0%float
  | e :: _ => snd e
  end.

(** [x.max() == x.min()] on a series that has values. *)
Definition is_constant (s : Series float) : bool :=
  match s with
  | [] => true
  | e :: s' => forallb (fun e' => (snd e' =? snd e)%float) s'
  end.

(** The checks of [adfuller(x)] with its default arguments, before any
    regression is run:
<<
    if x.max() == x.min():
        raise ValueError("Invalid input, x is constant")
    nobs = x.shape[0]
    ntrend = len(regression)              # regression = "c"
    maxlag = min(nobs // 2 - ntrend - 1, ...)
    if maxlag < 0:
        raise ValueError("sample size is too short to use selected "
                         "regression component")
>>
    On no observations, [x.max()] itself raises, in numpy. *)
Definition adfuller_checks (x : Series float) : result unit :=
  match x with
  | [] =>
      Raise (ValueError
        "zero-size array to reduction operation maximum which has no identity")
  | _ :: _ =>
      if is_constant x then Raise (ValueError "Invalid input, x is constant")
      else if Z.of_nat (length x) / 2 - 1 - 1 <? 0
      then Raise (ValueError
             "sample size is too short to use selected regression component")
      else Ok tt
  end.

(** A statsmodels whose ADF test makes the checks above and then reports
    the p-value [p]; whose model is built and fitted on any series; and
    whose forecast repeats the last observation, for at least one step. *)
Definition statsmodels (p : float) : Statsmodels :=
  {| Model := Series float;
     Results := Series float;
     adfuller := fun x =>
       match adfuller_checks x with
       | Raise e => Raise e
       | Ok _ =>
           Ok (mk_adf (-3.5)%float p 0 (Z.of_nat (length x)) [] 0%float)
       end;
     ARIMA := fun endog _ => Ok endog;
     fit := fun m => Ok m;
     forecast := fun r steps =>
       if steps <? 1
       then Raise (ValueError "Prediction must have `end` after `start`.")
       else Ok (combine (seq (length r) (Z.to_nat steps))
                        (repeat (last_value r) (Z.to_nat steps))) |}.

Definition bar_at (c : float) : Bar := mk_Bar c c c c 1000%float.

(** Eight trading days from Tuesday 2024-01-02 to Thursday 2024-01-11. *)
Definition frame8 : DataFrame :=
  [ (ymd 2024 1 2, bar_at 100); (ymd 2024 1 3, bar_at 101);
    (ymd 2024 1 4, bar_at 103); (ymd 2024 1 5, bar_at 102);
    (ymd 2024 1 8, bar_at 104); (ymd 2024 1 9, bar_at 107);
    (ymd 2024 1 10, bar_at 105); (ymd 2024 1 11, bar_at 108) ]%float.

(** The same closing prices a year earlier, with other OHLV columns. *)
Definition frame8' : DataFrame :=
  map (fun r => (fst r - 364,
                 (mk_Bar 1 (Close (snd r) + 5) 0 (Close (snd r)) 77)%float))
      frame8.

(** A single trading day. *)
Definition frame1 : DataFrame := [ (ymd 2024 1 2, bar_at 100%float) ].

(** The first three of the eight trading days. *)
Definition frame3 : DataFrame := firstn 3 frame8.

(** Five trading days on which the price did not move. *)
Definition flat5 : DataFrame :=
  [ (ymd 2024 1 2, bar_at 100); (ymd 2024 1 3, bar_at 100);
    (ymd 2024 1 4, bar_at 100); (ymd 2024 1 5, bar_at 100);
    (ymd 2024 1 8, bar_at 100) ]%float.

(** Three trading days for which the provider has rows but no prices. *)
Definition unpriced3 : DataFrame :=
  [ (ymd 2024 1 2, bar_at nan); (ymd 2024 1 3, bar_at nan);
    (ymd 2024 1 4, bar_at nan) ].

Definition session (ticker : string) (days : Z) : Session :=
  mk_Session ticker (ymd 2024 1 1) days true (ymd 2024 1 12).

End Sample.

(** ** Further observations *)

Definition is_download (c : call) : bool :=
  match c with yf_download _ _ _ => true | _ => false end.

Definition DATA_HEADING : call := st_subheader "📄 Data Used".

(** The statsmodels calls of a run on the frame [df], in the order of the
    script (lines 53, 82, 83, 86). *)
Definition statsmodels_plan (s : Session) (df : DataFrame) : list call :=
  [ call_adfuller (dropna (closes df));
    call_ARIMA (closes df) (5, 0, 0);
    call_fit;
    call_forecast (forecast_days_value s) ].

(** The library calls a run can make, in order: the download, then the
    statsmodels calls on what was downloaded. *)
Definition library_plan {yf : Provider} (s : Session) : list call :=
  yf_download (ticker_text s) (start_date_picked s) (today s)
  :: match fetched s with
     | Ok df => statsmodels_plan s df
     | Raise _ => []
     end.

(** The library calls a run makes: each call of the plan is made when the
    ones before it have returned (and, for the statsmodels calls, the
    frame is not empty), and none after one that raised. *)
Definition calls_until_raise {yf : Provider} {sm : Statsmodels}
    (s : Session) : list call :=
  if button_clicked s then
    yf_download (ticker_text s) (start_date_picked s) (today s)
    :: match fetched s with
       | Raise _ => []
       | Ok df =>
           if empty df then []
           else
             call_adfuller (dropna (closes df))
             :: match adfuller (dropna (closes df)) with
                | Raise _ => []
                | Ok _ =>
                    call_ARIMA (closes df) (5, 0, 0)
                    :: match ARIMA (closes df) (5, 0, 0) with
                       | Raise _ => []
                       | Ok model =>
                           call_fit
                           :: match fit model with
                              | Raise _ => []
                              | Ok _ =>
                                  [call_forecast (forecast_days_value s)]
                              end
                       end
                end
       end
  else [].

(** The downloaded frame back from a flat one: the column "Date" as the
    index again. *)
Definition set_index_Date (t : FlatFrame) : DataFrame :=
  map (fun r => (Date r, bar r)) t.

(** The tables passed to [st.dataframe]. *)
Fixpoint tables (t : list call) : list FlatFrame :=
  match t with
  | [] => []
  | st_dataframe df :: t' => df :: tables t'
  | _ :: t' => tables t'
  end.

(** The verdicts passed to [st.info]. *)
Fixpoint verdicts_shown (t : list call) : list string :=
  match t with
  | [] => []
  | st_info body :: t' => body :: verdicts_shown t'
  | _ :: t' => verdicts_shown t'
  end.

(** The series passed to [adfuller]. *)
Fixpoint series_tested (t : list call) : list (Series float) :=
  match t with
  | [] => []
  | call_adfuller x :: t' => x :: series_tested t'
  | _ :: t' => series_tested t'
  end.

(** From the last historical date to the first forecast date, by the
    weekday of the former: the next day from Monday to Thursday, the Monday
    after a Friday, and the Tuesday after a Saturday or Sunday. *)
Definition first_forecast_gap (wday : Z) : Z :=
  if wday <? 4 then 1 else if wday =? 6 then 2 else 3.

(** The ways a run of the script can go: for each, the calls it makes and
    how it ends. *)
Inductive run_of {yf : Provider} {sm : Statsmodels} (s : Session)
  : M unit -> Prop :=
| run_idle :
    button_clicked s = false ->
    run_of s (prelude, Ok tt)
| run_download_raised (e : exn) :
    button_clicked s = true ->
    fetched s = Raise e ->
    run_of s (prelude ++ fetch_calls s, Raise e)
| run_no_data (df : DataFrame) :
    button_clicked s = true ->
    fetched s = Ok df -> empty df = true ->
    run_of s (prelude ++ fetch_calls s ++ [st_error NO_DATA], Ok tt)
| run_adfuller_raised (df : DataFrame) (e : exn) :
    button_clicked s = true ->
    fetched s = Ok df -> empty df = false ->
    adfuller (dropna (closes df)) = Raise e ->
    run_of s (prelude ++ fetch_calls s
                ++ [ADF_HEADING; call_adfuller (dropna (closes df))],
              Raise e)
| run_ARIMA_raised (df : DataFrame) (r : adf_tuple) (e : exn) :
    button_clicked s = true ->
    fetched s = Ok df -> empty df = false ->
    adfuller (dropna (closes df)) = Ok r ->
    ARIMA (closes df) (5, 0, 0) = Raise e ->
    run_of s (prelude ++ fetch_calls s ++ calls_to_model df r, Raise e)
| run_fit_raised (df : DataFrame) (r : adf_tuple) (model : Model) (e : exn) :
    button_clicked s = true ->
    fetched s = Ok df -> empty df = false ->
    adfuller (dropna (closes df)) = Ok r ->
    ARIMA (closes df) (5, 0, 0) = Ok model ->
    fit model = Raise e ->
    run_of s (prelude ++ fetch_calls s ++ calls_to_model df r ++ [call_fit],
              Raise e)
| run_forecast_raised (df : DataFrame) (r : adf_tuple) (model : Model)
    (model_fit : Results) (e : exn) :
    button_clicked s = true ->
    fetched s = Ok df -> empty df = false ->
    adfuller (dropna (closes df)) = Ok r ->
    ARIMA (closes df) (5, 0, 0) = Ok model ->
    fit model = Ok model_fit ->
    forecast model_fit (forecast_days_value s) = Raise e ->
    run_of s (prelude ++ fetch_calls s ++ calls_to_model df r
                ++ [call_fit; call_forecast (forecast_days_value s)],
              Raise e)
| run_complete (df : DataFrame) (r : adf_tuple) (model : Model)
    (model_fit : Results) (fc : Series float) (start : date) :
    button_clicked s = true ->
    fetched s = Ok df -> empty df = false ->
    adfuller (dropna (closes df)) = Ok r ->
    ARIMA (closes df) (5, 0, 0) = Ok model ->
    fit model = Ok model_fit ->
    forecast model_fit (forecast_days_value s) = Ok fc ->
    last_date df = Some start ->
    run_of s (prelude ++ fetch_calls s ++ calls_to_model df r
                ++ [call_fit; call_forecast (forecast_days_value s);
                    pd_date_range start (forecast_days_value s + 1) "B"]
                ++ render_calls (ticker_text s) df
                     (next_bdays start (forecast_days_value s)) fc,
              Ok tt).

(** * Properties *)

(** ** The script monad *)

Lemma bind_Ok {A B} (t : list call) (a : A) (f : A -> M B) :
  bind (t, Ok a) f = (t ++ trace (f a), outcome (f a)).
Proof. unfold bind, trace, outcome. destruct (f a). reflexivity. Qed.

Lemma bind_Raise {A B} (t : list call) (e : exn) (f : A -> M B) :
  bind (t, Raise e) f = (t, Raise e).
Proof. reflexivity. Qed.

Lemma bind_ret_l {A B} (a : A) (f : A -> M B) : bind (ret a) f = f a.
Proof. unfold ret. rewrite bind_Ok. destruct (f a). reflexivity. Qed.

Lemma bind_ret_r {A} (m : M A) : bind m ret = m.
Proof.
  destruct m as [t [a|e]]; [|reflexivity].
  rewrite bind_Ok. simpl. now rewrite app_nil_r.
Qed.

Lemma bind_assoc {A B C} (m : M A) (f : A -> M B) (g : B -> M C) :
  bind (bind m f) g = bind m (fun a => bind (f a) g).
Proof.
  destruct m as [t [a|e]]; [|reflexivity].
  rewrite !bind_Ok. destruct (f a) as [t' [b|e]];
    cbn [trace outcome fst snd]; [|reflexivity].
  rewrite !bind_Ok. cbn [trace outcome fst snd]. now rewrite app_assoc.
Qed.

(** Once a call has raised, no further call is made. *)
Lemma bind_raise_trace {A B} (m : M A) (f : A -> M B) (e : exn) :
  outcome m = Raise e -> bind m f = (trace m, Raise e).
Proof. destruct m as [t [a|e']]; simpl; intros H; congruence. Qed.

(** ** Business days *)

Module CalendarFacts.

Import Calendar.

(** Decide one comparison of the goal, then all of them. *)
Ltac split_test :=
  match goal with
  | |- context [?x <? ?y] => destruct (Z.ltb_spec x y) as [?Hlt|?Hge]
  | |- context [?x =? ?y] => destruct (Z.eqb_spec x y) as [?Heq|?Hne]
  | |- context [?x <=? ?y] => destruct (Z.leb_spec x y) as [?Hle|?Hgt]
  end.

Ltac split_tests := repeat split_test; cbn [andb orb negb] in *.

Lemma weekday_range d : 0 <= weekday d < 7.
Proof. unfold weekday. apply Z.mod_pos_bound. lia. Qed.

Lemma weekday_shift d k w :
  0 <= w < 7 -> weekday d + k = w -> weekday (d + k) = w.
Proof.
  unfold weekday. intros Hw Hk.
  symmetry. apply (Z.mod_unique_pos _ _ ((d + 3) / 7)); [lia|].
  pose proof (Z.div_mod (d + 3) 7). lia.
Qed.

Lemma weekday_shift_week d k w :
  0 <= w < 7 -> weekday d + k = w + 7 -> weekday (d + k) = w.
Proof.
  unfold weekday. intros Hw Hk.
  symmetry. apply (Z.mod_unique_pos _ _ ((d + 3) / 7 + 1)); [lia|].
  pose proof (Z.div_mod (d + 3) 7). lia.
Qed.

(** The next business day, in closed form: the next day from Monday to
    Thursday, the Monday after from Friday to Sunday. *)
Lemma bday_apply_1 d :
  bday_apply 1 d =
  d + (if weekday d <? 4 then 1 else if weekday d <? 5 then 3
       else 7 - weekday d).
Proof.
  unfold bday_apply, adjust_ndays. change (1 / 5) with 0.
  pose proof (weekday_range d). split_tests; lia.
Qed.

Lemma weekday_next d :
  weekday (bday_apply 1 d) = if weekday d <? 4 then weekday d + 1 else 0.
Proof.
  rewrite bday_apply_1. pose proof (weekday_range d).
  split_tests.
  - apply weekday_shift; lia.
  - apply weekday_shift_week; lia.
  - apply weekday_shift_week; lia.
Qed.

Lemma next_bday_gt d : d < bday_apply 1 d.
Proof.
  rewrite bday_apply_1. pose proof (weekday_range d). split_tests; lia.
Qed.

Lemma next_bday_on d : is_on_offset (bday_apply 1 d) = true.
Proof.
  unfold is_on_offset. rewrite weekday_next. pose proof (weekday_range d).
  destruct (Z.ltb_spec (weekday d) 4); apply Z.ltb_lt; lia.
Qed.

Lemma rollforward_on d : is_on_offset (rollforward d) = true.
Proof.
  unfold rollforward.
  destruct (is_on_offset d) eqn:E; [exact E|apply next_bday_on].
Qed.

Lemma rollforward_ge d : d <= rollforward d.
Proof.
  unfold rollforward. destruct (is_on_offset d); [lia|].
  pose proof (next_bday_gt d). lia.
Qed.

Lemma bday_apply_0 d : is_on_offset d = true -> bday_apply 0 d = d.
Proof.
  unfold bday_apply, adjust_ndays, is_on_offset. change (0 / 5) with 0.
  intros H. apply Z.ltb_lt in H. pose proof (weekday_range d).
  split_tests; lia.
Qed.

(** [n + 1] business days from a business day are [n] business days from
    the next one. *)
Lemma bday_apply_succ n d :
  0 <= n -> is_on_offset d = true ->
  bday_apply (n + 1) d = bday_apply n (bday_apply 1 d).
Proof.
  intros Hn Hd. unfold bday_apply at 1 2. rewrite weekday_next.
  rewrite bday_apply_1. unfold is_on_offset in Hd. apply Z.ltb_lt in Hd.
  pose proof (weekday_range d) as Hwd. revert Hd Hwd.
  generalize (weekday d). intros wd Hd Hwd.
  unfold adjust_ndays.
  pose proof (Z.div_mod n 5 ltac:(lia)).
  pose proof (Z.mod_pos_bound n 5 ltac:(lia)).
  pose proof (Z.div_mod (n + 1) 5 ltac:(lia)).
  pose proof (Z.mod_pos_bound (n + 1) 5 ltac:(lia)).
  generalize dependent (n / 5). generalize dependent ((n + 1) / 5).
  generalize dependent (n mod 5). generalize dependent ((n + 1) mod 5).
  intros. split_tests; lia.
Qed.

Lemma bday_apply_ge n d :
  is_on_offset d = true -> d <= bday_apply (Z.of_nat n) d.
Proof.
  revert d. induction n as [|n IH]; intros d Hd.
  - rewrite bday_apply_0 by assumption. lia.
  - rewrite Nat2Z.inj_succ, <- Z.add_1_r, bday_apply_succ
      by (assumption || lia).
    specialize (IH _ (next_bday_on d)). pose proof (next_bday_gt d). lia.
Qed.

(** Friday 2024-01-05, three periods: Friday, Monday, Tuesday. *)
Example date_range_from_friday :
  date_range (ymd 2024 1 5) 3 =
  Ok [ymd 2024 1 5; ymd 2024 1 8; ymd 2024 1 9].
Proof. reflexivity. Qed.

(** Saturday 2024-01-06 is rolled forward to Monday. *)
Example date_range_from_saturday :
  date_range (ymd 2024 1 6) 2 = Ok [ymd 2024 1 8; ymd 2024 1 9].
Proof. reflexivity. Qed.

Example weekday_of_epoch : weekday (ymd 1970 1 1) = 3.
Proof. reflexivity. Qed.

(** One turn of the generator loop. *)
Lemma generate_loop_step cur end_ :
  generate_loop cur end_ =
  if end_ <? cur then Ok []
  else if cur =? end_ then Ok [cur]
  else if bday_apply 1 cur <=? cur
       then Raise (ValueError "Offset <BusinessDay> did not increment date")
       else match generate_loop (bday_apply 1 cur) end_ with
            | Ok l => Ok (cur :: l)
            | Raise e => Raise e
            end.
Proof.
  rewrite generate_loop_equation_1. unfold generate_loop_unfold_clause_1.
  destruct (Z_le_dec cur end_) as [Hle|Hgt];
    destruct (Z.ltb_spec end_ cur); try lia; [|reflexivity].
  unfold generate_loop_unfold_clause_1_clause_2.
  destruct (Z.eq_dec cur end_) as [He|Hne];
    destruct (Z.eqb_spec cur end_); try lia; [reflexivity|].
  unfold generate_loop_unfold_clause_1_clause_2_clause_2.
  destruct (Z_le_dec (bday_apply 1 cur) cur);
    destruct (Z.leb_spec (bday_apply 1 cur) cur); try lia; reflexivity.
Qed.

(** From a business day to the one [n] business days later, the loop
    yields [n + 1] consecutive business days and does not raise. *)
Lemma generate_loop_bdays n d :
  is_on_offset d = true ->
  generate_loop d (bday_apply (Z.of_nat n) d) = Ok (bdays_from (S n) d).
Proof.
  revert d. induction n as [|n IH]; intros d Hd; rewrite generate_loop_step.
  - rewrite bday_apply_0 by assumption.
    rewrite Z.ltb_irrefl, Z.eqb_refl. reflexivity.
  - rewrite Nat2Z.inj_succ, <- Z.add_1_r, bday_apply_succ
      by (assumption || lia).
    pose proof (bday_apply_ge n _ (next_bday_on d)) as Hge.
    pose proof (next_bday_gt d) as Hgt.
    destruct (Z.ltb_spec (bday_apply (Z.of_nat n) (bday_apply 1 d)) d);
      [lia|].
    destruct (Z.eqb_spec d (bday_apply (Z.of_nat n) (bday_apply 1 d)));
      [lia|].
    destruct (Z.leb_spec (bday_apply 1 d) d); [lia|].
    rewrite IH by apply next_bday_on. reflexivity.
Qed.

(** A negative number of business days from a business day leads
    backwards. *)
Lemma bday_apply_neg n d :
  n < 0 -> is_on_offset d = true -> bday_apply n d < d.
Proof.
  intros Hn Hd. unfold bday_apply, adjust_ndays.
  unfold is_on_offset in Hd. apply Z.ltb_lt in Hd.
  pose proof (weekday_range d) as Hwd. revert Hd Hwd.
  generalize (weekday d). intros wd Hd Hwd.
  pose proof (Z.div_mod n 5 ltac:(lia)).
  pose proof (Z.mod_pos_bound n 5 ltac:(lia)).
  generalize dependent (n / 5). generalize dependent (n mod 5).
  intros. split_tests; lia.
Qed.

(** [date_range] never raises: it is the list of [periods] consecutive
    business days from the rolled-forward start (none when [periods] is not
    positive). *)
Lemma date_range_bdays start periods :
  date_range start periods =
  Ok (bdays_from (Z.to_nat periods) (rollforward start)).
Proof.
  unfold date_range.
  destruct (Z_lt_le_dec periods 1) as [Hlt|Hge].
  - rewrite generate_loop_step.
    replace (Z.to_nat periods) with O by lia. simpl bdays_from.
    pose proof (bday_apply_neg (periods - 1) (rollforward start)
                  ltac:(lia) (rollforward_on start)) as Hback.
    apply Z.ltb_lt in Hback. rewrite Hback. reflexivity.
  - replace (periods - 1) with (Z.of_nat (Z.to_nat periods - 1)) by lia.
    rewrite generate_loop_bdays by apply rollforward_on.
    f_equal. f_equal. lia.
Qed.

Lemma bdays_from_length n d : length (bdays_from n d) = n.
Proof. revert d. induction n; intros; simpl; auto. Qed.

(** Every day of the list is at or after its first day. *)
Lemma bdays_from_ge n d : Forall (fun d' => d <= d') (bdays_from n d).
Proof.
  revert d. induction n as [|n IH]; intros d; simpl; constructor; [lia|].
  eapply Forall_impl; [|apply IH].
  intros d' Hd'. cbn beta in Hd'. pose proof (next_bday_gt d). lia.
Qed.

Lemma bdays_from_sorted n d : StronglySorted Z.lt (bdays_from n d).
Proof.
  revert d. induction n as [|n IH]; intros d; simpl; constructor.
  - apply IH.
  - eapply Forall_impl; [|apply bdays_from_ge].
    intros d' Hd'. cbn beta in Hd'. pose proof (next_bday_gt d). lia.
Qed.

Lemma bdays_from_on n d :
  is_on_offset d = true ->
  Forall (fun d' => is_on_offset d' = true) (bdays_from n d).
Proof.
  revert d. induction n as [|n IH]; intros d Hd; simpl; constructor.
  - exact Hd.
  - apply IH, next_bday_on.
Qed.

End CalendarFacts.

(** ** How a run unfolds *)

Section Runs.

Context {yf : Provider} {sm : Statsmodels}.

Lemma main_unfold (s : Session) :
  main s =
  if button_clicked s
  then (prelude ++ trace (generate (ticker_text s) (start_date_picked s)
                                   (today s) (forecast_days_value s)),
        outcome (generate (ticker_text s) (start_date_picked s)
                          (today s) (forecast_days_value s)))
  else (prelude, Ok tt).
Proof.
  unfold main, emit, perform. rewrite !bind_Ok. cbn [trace outcome fst snd].
  destruct (button_clicked s); reflexivity.
Qed.

Lemma generate_unfold (s : Session) :
  generate (ticker_text s) (start_date_picked s) (today s)
           (forecast_days_value s) =
  match fetched s with
  | Raise e => (fetch_calls s, Raise e)
  | Ok df =>
      if empty df then (fetch_calls s ++ [st_error NO_DATA], Ok tt)
      else (fetch_calls s
              ++ trace (present (ticker_text s) (forecast_days_value s) df),
            outcome (present (ticker_text s) (forecast_days_value s) df))
  end.
Proof.
  unfold generate, fetched, emit, perform. rewrite bind_Ok.
  cbn [trace outcome fst snd app].
  destruct (download _ _ _) as [df|e]; [|reflexivity].
  rewrite bind_Ok. destruct (empty df); reflexivity.
Qed.

Lemma check_stationarity_unfold (series : Series float) :
  check_stationarity series =
  match adfuller (dropna series) with
  | Ok r => ([call_adfuller (dropna series)], Ok (verdict r))
  | Raise e => ([call_adfuller (dropna series)], Raise e)
  end.
Proof.
  unfold check_stationarity, perform, verdict.
  destruct (adfuller (dropna series)) as [r|e]; [|reflexivity].
  rewrite bind_Ok. destruct (pvalue r <? 0.05)%float; reflexivity.
Qed.

Lemma train_and_forecast_unfold (close : Series float) (h : Z) :
  train_and_forecast close h =
  match ARIMA close (5, 0, 0) with
  | Raise e =>
      ([st_spinner "Training ARIMA model..."; call_ARIMA close (5, 0, 0)],
       Raise e)
  | Ok model =>
      match fit model with
      | Raise e =>
          ([st_spinner "Training ARIMA model..."; call_ARIMA close (5, 0, 0);
            call_fit], Raise e)
      | Ok model_fit =>
          ([st_spinner "Training ARIMA model..."; call_ARIMA close (5, 0, 0);
            call_fit; call_forecast h], forecast model_fit h)
      end
  end.
Proof.
  unfold train_and_forecast, emit, perform. rewrite bind_Ok.
  cbn [trace outcome fst snd app].
  destruct (ARIMA close (5, 0, 0)) as [model|e]; [|reflexivity].
  rewrite bind_Ok. cbn [trace outcome fst snd app].
  destruct (fit model) as [model_fit|e]; [|reflexivity].
  rewrite bind_Ok. cbn [trace outcome fst snd app].
  destruct (forecast model_fit h); reflexivity.
Qed.

Lemma make_forecast_dates_unfold (df : FlatFrame) (h : Z) :
  make_forecast_dates df h =
  match iloc_last (column Date df) with
  | Raise e => ([], Raise e)
  | Ok start =>
      match date_range start (h + 1) with
      | Raise e => ([pd_date_range start (h + 1) "B"], Raise e)
      | Ok idx => ([pd_date_range start (h + 1) "B"], Ok (tl idx))
      end
  end.
Proof.
  unfold make_forecast_dates, lift, perform.
  destruct (iloc_last (column Date df)) as [start|e]; [|reflexivity].
  rewrite bind_Ok. cbn [trace outcome fst snd app].
  destruct (date_range start (h + 1)); reflexivity.
Qed.

(** The success branch, call by call. *)
Lemma present_unfold (ticker : string) (h : Z) (df : DataFrame) :
  present ticker h df =
  match adfuller (dropna (closes df)) with
  | Raise e =>
      ([st_subheader "📌 Stationarity Test (ADF)";
        call_adfuller (dropna (closes df))], Raise e)
  | Ok r =>
      match ARIMA (closes df) (5, 0, 0) with
      | Raise e => (calls_to_model df r, Raise e)
      | Ok model =>
      match fit model with
      | Raise e => (calls_to_model df r ++ [call_fit], Raise e)
      | Ok model_fit =>
      match forecast model_fit h with
      | Raise e =>
          (calls_to_model df r ++ [call_fit; call_forecast h], Raise e)
      | Ok fc =>
      match iloc_last (column Date (reset_index df)) with
      | Raise e =>
          (calls_to_model df r ++ [call_fit; call_forecast h], Raise e)
      | Ok start =>
      match date_range start (h + 1) with
      | Raise e =>
          (calls_to_model df r
             ++ [call_fit; call_forecast h; pd_date_range start (h + 1) "B"],
           Raise e)
      | Ok idx =>
          (calls_to_model df r
             ++ [call_fit; call_forecast h; pd_date_range start (h + 1) "B"]
             ++ render_calls ticker df (tl idx) fc,
           Ok tt)
      end end end end end
  end.
Proof.
  unfold present, closes, calls_to_model, render_calls, emit.
  unfold perform at 1. rewrite bind_Ok. cbn [trace outcome fst snd app].
  rewrite check_stationarity_unfold.
  destruct (adfuller _) as [r|e]; [|reflexivity].
  rewrite bind_Ok. unfold perform at 1. rewrite bind_Ok.
  cbn [trace outcome fst snd app].
  rewrite train_and_forecast_unfold.
  destruct (ARIMA _ _) as [model|e]; [|reflexivity].
  destruct (fit model) as [model_fit|e]; [|reflexivity].
  destruct (forecast model_fit h) as [fc|e]; [|reflexivity].
  rewrite bind_Ok. cbn [trace outcome fst snd app].
  rewrite make_forecast_dates_unfold.
  destruct (iloc_last _) as [start|e]; [|reflexivity].
  destruct (date_range start (h + 1)) as [idx|e]; reflexivity.
Qed.

End Runs.

(** ** Columns of a frame *)

Lemma combine_app {A B} (l1 l2 : list A) (k1 k2 : list B) :
  length l1 = length k1 ->
  combine (l1 ++ l2) (k1 ++ k2) = combine l1 k1 ++ combine l2 k2.
Proof.
  revert k1. induction l1 as [|a l1 IH]; intros [|b k1] Hlen;
    try discriminate; [reflexivity|].
  simpl. f_equal. apply IH. now injection Hlen.
Qed.

Lemma map_snd_combine {A B} (l : list A) (k : list B) :
  length l = length k -> map snd (combine l k) = k.
Proof.
  revert k. induction l as [|a l IH]; intros [|b k] Hlen;
    try discriminate; [reflexivity|].
  simpl. f_equal. apply IH. now injection Hlen.
Qed.

Lemma column_snoc {A} (get : Row -> A) (df : FlatFrame) (r : Row) :
  column get (df ++ [r]) = column get df ++ [(length df, get r)].
Proof.
  unfold column, RangeIndex.
  rewrite length_app, map_app. cbn [length map].
  rewrite Nat.add_1_r, seq_S. cbn [Nat.add].
  rewrite combine_app by (now rewrite length_seq, length_map).
  reflexivity.
Qed.

Lemma iloc_last_column {A} (get : Row -> A) (df : FlatFrame) :
  iloc_last (column get df) =
  match rev df with
  | [] => Raise (IndexError "single positional indexer is out-of-bounds")
  | r :: _ => Ok (get r)
  end.
Proof.
  destruct df as [|r0 df'] using rev_ind; [reflexivity|].
  rewrite column_snoc. unfold iloc_last. rewrite !rev_app_distr. reflexivity.
Qed.

(** [df["Date"].iloc[-1]] is the date of the last downloaded row; it is
    there whenever the frame is not empty. *)
Lemma iloc_last_Date (df : DataFrame) :
  iloc_last (column Date (reset_index df)) =
  match last_date df with
  | Some d => Ok d
  | None => Raise (IndexError "single positional indexer is out-of-bounds")
  end.
Proof.
  rewrite iloc_last_column. unfold last_date, reset_index.
  rewrite <- map_rev. destruct (rev df); reflexivity.
Qed.

Lemma last_date_nonempty (df : DataFrame) :
  empty df = false -> exists d, last_date df = Some d.
Proof.
  unfold last_date. destruct df as [|r df'] using rev_ind; [discriminate|].
  intros _. rewrite rev_app_distr. simpl. eauto.
Qed.

Lemma values_column {A} (get : Row -> A) (df : FlatFrame) :
  values (column get df) = map get df.
Proof.
  unfold values, column, RangeIndex.
  rewrite map_snd_combine; [reflexivity|].
  now rewrite length_seq, length_map.
Qed.

(** ** Floating-point comparison *)

Module FloatFacts.

Lemma SFltb_negb_SFleb (a b : SpecFloat.spec_float) :
  a <> SpecFloat.S754_nan -> b <> SpecFloat.S754_nan ->
  SpecFloat.SFltb a b = negb (SpecFloat.SFleb b a).
Proof.
  unfold SpecFloat.SFltb, SpecFloat.SFleb.
  destruct a as [sa|sa| |sa ma ea], b as [sb|sb| |sb mb eb];
    intros Ha Hb; try congruence;
    try (destruct sa; reflexivity); try (destruct sb; reflexivity);
    try (destruct sa, sb; reflexivity).
  cbn [SpecFloat.SFcompare].
  destruct sa, sb; try reflexivity;
    rewrite (Z.compare_antisym ea eb);
    destruct (ea ?= eb)%Z; cbn [CompOpp]; try reflexivity;
    change (Pos.compare_cont Eq mb ma)
      with (Pos.compare_cont (CompOpp Eq) mb ma);
    rewrite <- (Pos.compare_cont_antisym ma mb Eq);
    destruct (Pos.compare_cont Eq ma mb); reflexivity.
Qed.

Lemma is_nan_Prim2SF (p : float) :
  PrimFloat.is_nan p = false -> Prim2SF p <> SpecFloat.S754_nan.
Proof.
  unfold PrimFloat.is_nan. rewrite eqb_spec. intros H Hnan.
  rewrite Hnan in H. discriminate.
Qed.

(** Away from NaN, "not less than" is "greater than or equal". *)
Lemma ltb_negb_leb (p q : float) :
  PrimFloat.is_nan p = false -> PrimFloat.is_nan q = false ->
  (p <? q)%float = negb (q <=? p)%float.
Proof.
  intros Hp Hq. rewrite ltb_spec, leb_spec.
  apply SFltb_negb_SFleb; now apply is_nan_Prim2SF.
Qed.

(** NaN is less than nothing. *)
Lemma ltb_nan_l (p q : float) :
  PrimFloat.is_nan p = true -> (p <? q)%float = false.
Proof.
  unfold PrimFloat.is_nan. rewrite eqb_spec, ltb_spec.
  unfold SpecFloat.SFeqb, SpecFloat.SFltb.
  destruct (Prim2SF p) as [s|s| |s m e]; cbn [SpecFloat.SFcompare negb].
  - discriminate.
  - destruct s; discriminate.
  - reflexivity.
  - rewrite Z.compare_refl, Pos.compare_cont_refl.
    destruct s; discriminate.
Qed.

End FloatFacts.

(** ** Runs on an empty fetch *)

Section EmptyData.

Context {yf : Provider} {sm : Statsmodels}.

Ltac in_cases H :=
  repeat (destruct H as [<-|H]; [try discriminate|]); try contradiction.

Lemma prelude_no_pipeline_call (c : call) :
  In c prelude -> is_pipeline_call c = false.
Proof. intros H. unfold prelude in H. simpl in H. in_cases H; reflexivity. Qed.

Lemma fetch_no_pipeline_call (s : Session) (c : call) :
  In c (fetch_calls s) -> is_pipeline_call c = false.
Proof. intros H. simpl in H. in_cases H; reflexivity. Qed.

(** A run makes a call of the pipeline only if the button was clicked and
    the provider answered with a non-empty frame. *)
Lemma pipeline_call_needs_data (s : Session) (c : call) :
  In c (trace (main s)) -> is_pipeline_call c = true ->
  button_clicked s = true /\
  exists df, fetched s = Ok df /\ empty df = false.
Proof.
  rewrite main_unfold. destruct (button_clicked s).
  - rewrite generate_unfold. destruct (fetched s) as [df|e].
    + destruct (empty df) eqn:Hempty.
      * cbn [trace fst]. intros Hin Hc. exfalso.
        rewrite !in_app_iff in Hin. destruct Hin as [Hin|[Hin|Hin]].
        -- apply prelude_no_pipeline_call in Hin. congruence.
        -- apply fetch_no_pipeline_call in Hin. congruence.
        -- simpl in Hin. destruct Hin as [<-|[]]. discriminate.
      * intros _ _. split; [reflexivity|]. now exists df.
    + cbn [trace fst]. intros Hin Hc. exfalso.
      rewrite !in_app_iff in Hin. destruct Hin as [Hin|Hin].
      * apply prelude_no_pipeline_call in Hin. congruence.
      * apply fetch_no_pipeline_call in Hin. congruence.
  - cbn [trace fst]. intros Hin Hc. exfalso.
    apply prelude_no_pipeline_call in Hin. congruence.
Qed.

(** C1.  When the fetched frame is empty, the run consists of the page
    set-up, the fetch and one [st.error] message, and ends normally: it
    makes no stationarity check, model fit, forecast or date computation and
    renders no verdict, chart or table.  Whatever the frame, a run that
    makes any of those calls has fetched a non-empty frame. *)
Theorem empty_fetch_short_circuits (s : Session) (df : DataFrame) :
  button_clicked s = true ->
  fetched s = Ok df ->
  (empty df = true ->
     main s = (prelude ++ fetch_calls s ++ [st_error NO_DATA], Ok tt)
     /\ filter is_st_error (trace (main s)) = [st_error NO_DATA]
     /\ filter is_pipeline_call (trace (main s)) = [])
  /\ (forall c, In c (trace (main s)) -> is_pipeline_call c = true ->
        empty df = false).
Proof.
  intros Hclick Hfetch. split.
  - intros Hempty.
    assert (main s = (prelude ++ fetch_calls s ++ [st_error NO_DATA], Ok tt))
      as Hrun.
    { rewrite main_unfold, Hclick, generate_unfold, Hfetch, Hempty.
      reflexivity. }
    rewrite Hrun. split; [reflexivity|]. split; reflexivity.
  - intros c Hin Hc.
    destruct (pipeline_call_needs_data s c Hin Hc) as [_ [df' [Hdf' Hne]]].
    congruence.
Qed.

End EmptyData.

Lemma empty_fetch_short_circuits_witness :
  @main (Sample.provider []) (Sample.statsmodels 0.01)
        (Sample.session "NOPE" 10)
  = (prelude ++ fetch_calls (Sample.session "NOPE" 10) ++ [st_error NO_DATA],
     Ok tt).
Proof.
  apply (@empty_fetch_short_circuits
           (Sample.provider []) (Sample.statsmodels 0.01)
           (Sample.session "NOPE" 10) [] eq_refl eq_refl).
  reflexivity.
Defined.

(** ** Forecast dates *)

Section ForecastDates.

Import CalendarFacts.

(** The index with its first entry dropped. *)
Lemma tl_date_range (start : date) (h : Z) :
  exists idx,
    date_range start (h + 1) = Ok idx /\ tl idx = next_bdays start h.
Proof.
  rewrite date_range_bdays. eexists. split; [reflexivity|].
  unfold next_bdays. destruct (Z_lt_le_dec h 0) as [Hneg|Hpos].
  - replace (Z.to_nat (h + 1)) with O by lia.
    replace (Z.to_nat h) with O by lia. reflexivity.
  - replace (Z.to_nat (h + 1)) with (S (Z.to_nat h)) by lia. reflexivity.
Qed.

(** For a frame with a last row, the forecast dates are the business days
    that follow its date. *)
Lemma make_forecast_dates_ok (df : DataFrame) (h : Z) (start : date) :
  last_date df = Some start ->
  make_forecast_dates (reset_index df) h =
  ([pd_date_range start (h + 1) "B"], Ok (next_bdays start h)).
Proof.
  intros Hlast. rewrite make_forecast_dates_unfold, iloc_last_Date, Hlast.
  destruct (tl_date_range start h) as [idx [-> <-]]. reflexivity.
Qed.

Lemma next_bdays_length (start : date) (h : Z) :
  length (next_bdays start h) = Z.to_nat h.
Proof. apply bdays_from_length. Qed.

Lemma next_bdays_sorted (start : date) (h : Z) :
  StronglySorted Z.lt (next_bdays start h).
Proof. apply bdays_from_sorted. Qed.

Lemma next_bdays_later_weekdays (start : date) (h : Z) :
  Forall (fun d => start < d /\ 0 <= weekday d <= 4) (next_bdays start h).
Proof.
  unfold next_bdays. apply Forall_forall. intros d Hd.
  pose proof (bdays_from_ge (Z.to_nat h) (bday_apply 1 (rollforward start)))
    as Hge.
  pose proof (bdays_from_on (Z.to_nat h) _ (next_bday_on (rollforward start)))
    as Hon.
  rewrite Forall_forall in Hge, Hon.
  specialize (Hge d Hd). specialize (Hon d Hd).
  unfold is_on_offset in Hon. apply Z.ltb_lt in Hon.
  pose proof (weekday_range d).
  pose proof (next_bday_gt (rollforward start)).
  pose proof (rollforward_ge start). lia.
Qed.

(** C3.  For a non-empty frame, whose last row is dated [start]: whenever
    the forecast dates are produced they are strictly increasing, each is
    strictly after [start], and each falls on Monday to Friday; and they are
    produced, [h] of them, for every horizon [h] from 0 on. *)
Theorem forecast_dates_are_later_weekdays (df : DataFrame) (h : Z) :
  empty df = false ->
  exists start,
    last_date df = Some start
    /\ (forall dates,
          outcome (make_forecast_dates (reset_index df) h) = Ok dates ->
          StronglySorted Z.lt dates
          /\ Forall (fun d => start < d /\ 0 <= weekday d <= 4) dates)
    /\ (0 <= h ->
        exists dates,
          outcome (make_forecast_dates (reset_index df) h) = Ok dates
          /\ Z.of_nat (length dates) = h).
Proof.
  intros Hne. destruct (last_date_nonempty df Hne) as [start Hstart].
  exists start. split; [exact Hstart|]. split.
  - intros dates Hdates.
    rewrite (make_forecast_dates_ok df h start Hstart) in Hdates.
    injection Hdates as <-. split.
    + apply next_bdays_sorted.
    + apply next_bdays_later_weekdays.
  - intros Hh. exists (next_bdays start h). split.
    + rewrite (make_forecast_dates_ok df h start Hstart). reflexivity.
    + rewrite next_bdays_length. lia.
Qed.

End ForecastDates.

Lemma forecast_dates_are_later_weekdays_witness :
  exists start,
    last_date Sample.frame8 = Some start
    /\ (forall dates,
          outcome (make_forecast_dates (reset_index Sample.frame8) 10)
            = Ok dates ->
          StronglySorted Z.lt dates
          /\ Forall (fun d => start < d /\ 0 <= weekday d <= 4) dates)
    /\ (0 <= 10 ->
        exists dates,
          outcome (make_forecast_dates (reset_index Sample.frame8) 10)
            = Ok dates
          /\ Z.of_nat (length dates) = 10).
Proof.
  apply (forecast_dates_are_later_weekdays Sample.frame8 10). reflexivity.
Defined.

(** ** Runs that reach the model *)

Section Forecasting.

Context {yf : Provider} {sm : Statsmodels}.

(** A run on a non-empty frame continues with the success branch. *)
Lemma main_present (s : Session) (df : DataFrame) :
  button_clicked s = true ->
  fetched s = Ok df ->
  empty df = false ->
  main s =
  (prelude ++ fetch_calls s
     ++ trace (present (ticker_text s) (forecast_days_value s) df),
   outcome (present (ticker_text s) (forecast_days_value s) df)).
Proof.
  intros Hclick Hfetch Hne.
  rewrite main_unfold, Hclick, generate_unfold, Hfetch, Hne.
  cbn [trace outcome fst snd]. now rewrite app_assoc.
Qed.

(** The complete run when every step succeeds. *)
Lemma main_success (s : Session) (df : DataFrame) (r : adf_tuple)
    (model : Model) (model_fit : Results) (fc : Series float)
    (start : date) :
  button_clicked s = true ->
  fetched s = Ok df ->
  empty df = false ->
  adfuller (dropna (closes df)) = Ok r ->
  ARIMA (closes df) (5, 0, 0) = Ok model ->
  fit model = Ok model_fit ->
  forecast model_fit (forecast_days_value s) = Ok fc ->
  last_date df = Some start ->
  main s =
  (prelude ++ fetch_calls s ++ calls_to_model df r
     ++ [call_fit; call_forecast (forecast_days_value s);
         pd_date_range start (forecast_days_value s + 1) "B"]
     ++ render_calls (ticker_text s) df
          (next_bdays start (forecast_days_value s)) fc,
   Ok tt).
Proof.
  intros Hclick Hfetch Hne Hadf Hmodel Hfit Hfc Hlast.
  rewrite (main_present s df Hclick Hfetch Hne), present_unfold.
  rewrite Hadf, Hmodel, Hfit, Hfc, iloc_last_Date, Hlast.
  destruct (tl_date_range start (forecast_days_value s)) as [idx [-> <-]].
  reflexivity.
Qed.

(** C2.  With a statsmodels whose [forecast] returns as many predictions as
    steps asked for, a horizon between 5 and 60 and a non-empty frame on
    whose closing prices the model is built and fitted: the forecast has
    exactly [horizon] entries and exactly [horizon] forecast dates are
    constructed; and when the run gets that far (the button was clicked, the
    frame was fetched, the ADF test returned), it ends normally and plots
    those values against those dates. *)
Theorem forecast_length_is_horizon (s : Session) (df : DataFrame)
    (model : Model) (model_fit : Results) :
  forecast_contract sm ->
  5 <= forecast_days_value s <= 60 ->
  empty df = false ->
  ARIMA (closes df) (5, 0, 0) = Ok model ->
  fit model = Ok model_fit ->
  exists (fc : Series float) (dates : list date),
    outcome (train_and_forecast (closes df) (forecast_days_value s)) = Ok fc
    /\ Z.of_nat (length (values fc)) = forecast_days_value s
    /\ outcome (make_forecast_dates (reset_index df) (forecast_days_value s))
       = Ok dates
    /\ Z.of_nat (length dates) = forecast_days_value s
    /\ (button_clicked s = true ->
        fetched s = Ok df ->
        forall r, adfuller (dropna (closes df)) = Ok r ->
          outcome (main s) = Ok tt
          /\ forecast_values (main s) = Some (values fc)
          /\ forecast_dates (main s) = Some dates).
Proof.
  intros Hcontract Hh Hne Hmodel Hfit.
  destruct (Hcontract model_fit (forecast_days_value s) ltac:(lia))
    as [fc [Hfc Hlen]].
  destruct (last_date_nonempty df Hne) as [start Hstart].
  exists fc, (next_bdays start (forecast_days_value s)).
  split; [|split; [|split; [|split]]].
  - rewrite train_and_forecast_unfold, Hmodel, Hfit. exact Hfc.
  - unfold values. now rewrite length_map.
  - rewrite (make_forecast_dates_ok df _ start Hstart). reflexivity.
  - rewrite next_bdays_length. lia.
  - intros Hclick Hfetch r Hadf.
    rewrite (main_success s df r model model_fit fc start) by auto.
    split; [reflexivity|]. split; reflexivity.
Qed.

End Forecasting.

Lemma sample_forecast_contract (p : float) :
  forecast_contract (Sample.statsmodels p).
Proof.
  intros r steps Hsteps. cbn [forecast Sample.statsmodels].
  destruct (Z.ltb_spec steps 1); [lia|].
  eexists. split; [reflexivity|].
  rewrite length_combine, length_seq, repeat_length. lia.
Qed.

Lemma forecast_length_is_horizon_witness :
  exists (fc : Series float) (dates : list date),
    outcome (@train_and_forecast (Sample.statsmodels 0.01)
               (closes Sample.frame8) 10) = Ok fc
    /\ Z.of_nat (length (values fc)) = 10
    /\ outcome (make_forecast_dates (reset_index Sample.frame8) 10) = Ok dates
    /\ Z.of_nat (length dates) = 10.
Proof.
  destruct (@forecast_length_is_horizon
              (Sample.provider Sample.frame8) (Sample.statsmodels 0.01)
              (Sample.session "1299.HK" 10) Sample.frame8
              (closes Sample.frame8) (closes Sample.frame8)
              (sample_forecast_contract 0.01)
              ltac:(simpl; lia) eq_refl eq_refl eq_refl)
    as [fc [dates [H1 [H2 [H3 [H4 _]]]]]].
  exists fc, dates. auto.
Defined.

(** ** The stationarity check *)

Section Stationarity.

Context {sm : Statsmodels}.

Lemma dropna_In (series : Series float) (e : nat * float) :
  In e (dropna series) <-> In e series /\ PrimFloat.is_nan (snd e) = false.
Proof.
  unfold dropna. rewrite filter_In.
  destruct (PrimFloat.is_nan (snd e)); simpl; intuition congruence.
Qed.

Lemma dropna_no_nan (series : Series float) :
  Forall (fun e => PrimFloat.is_nan (snd e) = false) (dropna series).
Proof. apply Forall_forall. intros e He. now apply dropna_In in He. Qed.

(** Nothing but missing values is dropped. *)
Lemma dropna_complete (series : Series float) :
  Forall (fun e => PrimFloat.is_nan (snd e) = false) series ->
  dropna series = series.
Proof.
  induction 1 as [|e l He Hl IH]; [reflexivity|].
  unfold dropna in *. simpl. rewrite He. simpl. now rewrite IH.
Qed.

Lemma verdicts_differ : STATIONARY <> NOT_STATIONARY.
Proof. discriminate. Qed.

(** C4.  [check_stationarity] calls the ADF test once, on the series
    without its missing values; when the test returns, the answer is the
    "stationary" message exactly when the p-value is below 0.05 and the
    "not stationary" message exactly when it is not, which for a p-value
    that is a number means 0.05 or more (a NaN p-value also gives "not
    stationary"); a p-value of exactly 0.05 gives "not stationary". *)
Theorem stationarity_threshold (series : Series float) (r : adf_tuple) :
  adfuller (dropna series) = Ok r ->
  trace (check_stationarity series) = [call_adfuller (dropna series)]
  /\ (forall e, In e (dropna series) <->
                In e series /\ PrimFloat.is_nan (snd e) = false)
  /\ (outcome (check_stationarity series) = Ok STATIONARY <->
      (pvalue r <? 0.05)%float = true)
  /\ (outcome (check_stationarity series) = Ok NOT_STATIONARY <->
      (pvalue r <? 0.05)%float = false)
  /\ (PrimFloat.is_nan (pvalue r) = false ->
      (outcome (check_stationarity series) = Ok NOT_STATIONARY <->
       (0.05 <=? pvalue r)%float = true))
  /\ (PrimFloat.is_nan (pvalue r) = true ->
      outcome (check_stationarity series) = Ok NOT_STATIONARY)
  /\ (pvalue r = 0.05%float ->
      outcome (check_stationarity series) = Ok NOT_STATIONARY).
Proof.
  intros Hadf. rewrite check_stationarity_unfold, Hadf.
  cbn [trace outcome fst snd]. unfold verdict.
  split; [reflexivity|]. split; [apply dropna_In|].
  pose proof verdicts_differ as Hdiff.
  split; [|split; [|split; [|split]]].
  - destruct (pvalue r <? 0.05)%float; split; congruence.
  - destruct (pvalue r <? 0.05)%float; split; congruence.
  - intros Hnan.
    rewrite (FloatFacts.ltb_negb_leb (pvalue r) 0.05 Hnan eq_refl).
    destruct (0.05 <=? pvalue r)%float; cbn [negb]; split; congruence.
  - intros Hnan. now rewrite (FloatFacts.ltb_nan_l _ _ Hnan).
  - intros ->. reflexivity.
Qed.

End Stationarity.

Lemma stationarity_threshold_witness :
  outcome (@check_stationarity (Sample.statsmodels 0.05)
             (closes Sample.frame8)) = Ok NOT_STATIONARY.
Proof.
  apply (@stationarity_threshold (Sample.statsmodels 0.05)
           (closes Sample.frame8)
           (mk_adf (-3.5)%float 0.05%float 0 8 [] 0%float) eq_refl).
  reflexivity.
Defined.

(** ** Every run has one of eight shapes *)

Section Shapes.

Context {yf : Provider} {sm : Statsmodels}.

Lemma main_run (s : Session) : run_of s (main s).
Proof.
  rewrite main_unfold. destruct (button_clicked s) eqn:Hclick;
    [|now apply run_idle].
  rewrite generate_unfold. destruct (fetched s) as [df|e] eqn:Hfetch;
    cbn [trace outcome fst snd]; [|now apply run_download_raised].
  destruct (empty df) eqn:Hne; cbn [trace outcome fst snd];
    [now apply (run_no_data s df)|].
  rewrite present_unfold, iloc_last_Date.
  destruct (last_date_nonempty df Hne) as [start Hstart]. rewrite Hstart.
  destruct (tl_date_range start (forecast_days_value s)) as [idx [-> Htl]].
  rewrite Htl.
  destruct (adfuller _) as [r|e] eqn:Hadf; cbn [trace outcome fst snd];
    [|now apply run_adfuller_raised].
  destruct (ARIMA _ _) as [model|e] eqn:Hmodel; cbn [trace outcome fst snd];
    [|now apply run_ARIMA_raised].
  destruct (fit model) as [model_fit|e] eqn:Hfit;
    cbn [trace outcome fst snd];
    [|now apply run_fit_raised with (model := model)].
  destruct (forecast model_fit _) as [fc|e] eqn:Hfc;
    cbn [trace outcome fst snd];
    [|now apply run_forecast_raised with (model := model)
                                         (model_fit := model_fit)].
  now apply run_complete with (model := model) (model_fit := model_fit).
Qed.

End Shapes.

(** Read the charts, tables and verdicts off the calls of a run. *)
Ltac read_trace :=
  cbn [trace fst charts tables verdicts_shown series_tested models_built
       app prelude fetch_calls calls_to_model render_calls ADF_HEADING In].

(** Two successful results of the same call are the same result. *)
Ltac same_results :=
  repeat match goal with
  | H1 : ?call = Ok ?a, H2 : ?call = Ok ?b |- _ =>
      assert (b = a) by congruence; subst b; clear H2
  end.

(** ** Runs in which a library call raises *)

Section Failures.

Context {yf : Provider} {sm : Statsmodels}.

(** C5 (as the code has it).  When the ADF test raises on the closing
    prices, [check_stationarity] ends with that same exception, and so does
    the run, right after the heading of the stationarity section: the script
    catches nothing and issues no [st.error] message of its own. *)
Theorem adf_failure_propagates (s : Session) (df : DataFrame) (e : exn) :
  button_clicked s = true ->
  fetched s = Ok df ->
  empty df = false ->
  adfuller (dropna (closes df)) = Raise e ->
  check_stationarity (closes df)
    = ([call_adfuller (dropna (closes df))], Raise e)
  /\ main s =
     (prelude ++ fetch_calls s
        ++ [st_subheader "📌 Stationarity Test (ADF)";
            call_adfuller (dropna (closes df))],
      Raise e)
  /\ filter is_st_error (trace (main s)) = [].
Proof.
  intros Hclick Hfetch Hne Hadf.
  assert (main s =
          (prelude ++ fetch_calls s
             ++ [st_subheader "📌 Stationarity Test (ADF)";
                 call_adfuller (dropna (closes df))],
           Raise e)) as Hrun.
  { rewrite (main_present s df Hclick Hfetch Hne), present_unfold, Hadf.
    reflexivity. }
  split; [|split].
  - rewrite check_stationarity_unfold, Hadf. reflexivity.
  - exact Hrun.
  - rewrite Hrun. reflexivity.
Qed.

(** When the model constructor or [model.fit()] raises, the run ends with
    exactly that exception, at that call: the model was built once, fit was
    called at most once, and no forecast, date range, chart or table
    follows. *)
Lemma model_failure_propagates (s : Session) (df : DataFrame) (r : adf_tuple)
    (e : exn) :
  button_clicked s = true ->
  fetched s = Ok df ->
  empty df = false ->
  adfuller (dropna (closes df)) = Ok r ->
  (ARIMA (closes df) (5, 0, 0) = Raise e
   \/ exists model, ARIMA (closes df) (5, 0, 0) = Ok model
                    /\ fit model = Raise e) ->
  outcome (main s) = Raise e
  /\ trace (main s) =
     prelude ++ fetch_calls s ++ calls_to_model df r
       ++ match ARIMA (closes df) (5, 0, 0) with
          | Ok _ => [call_fit]
          | Raise _ => []
          end
  /\ models_built (trace (main s)) = [(closes df, (5, 0, 0))]
  /\ (length (filter is_fit_call (trace (main s))) <= 1)%nat
  /\ filter follows_fit (trace (main s)) = [].
Proof.
  intros Hclick Hfetch Hne Hadf Hfail.
  rewrite (main_present s df Hclick Hfetch Hne), present_unfold, Hadf.
  destruct Hfail as [Hmodel|[model [Hmodel Hfit]]].
  - rewrite Hmodel. cbn [trace outcome fst snd].
    split; [reflexivity|]. split; [|split; [|split]].
    + now rewrite app_nil_r.
    + reflexivity.
    + cbn. lia.
    + reflexivity.
  - rewrite Hmodel, Hfit. cbn [trace outcome fst snd].
    split; [reflexivity|]. split; [|split; [|split]].
    + reflexivity.
    + reflexivity.
    + cbn. lia.
    + reflexivity.
Qed.

(** Every model a run builds has order (5, 0, 0). *)
Lemma models_built_order (s : Session) (endog : Series float)
    (order : Z * Z * Z) :
  In (endog, order) (models_built (trace (main s))) ->
  order = (5, 0, 0) /\ exists df, fetched s = Ok df /\ endog = closes df.
Proof.
  rewrite main_unfold. destruct (button_clicked s); [|intros []].
  rewrite generate_unfold. destruct (fetched s) as [df|e]; [|intros []].
  destruct (empty df); [intros []|].
  rewrite present_unfold.
  assert (In (endog, order) [(closes df, (5, 0, 0))] ->
          order = (5, 0, 0) /\ exists df', Ok df = Ok df' /\ endog = closes df')
    as Hone.
  { intros [Heq|[]]. injection Heq as <- <-. split; [reflexivity|].
    now exists df. }
  destruct (adfuller _) as [r|e]; [|intros []].
  destruct (ARIMA _ _) as [model|e]; [|exact Hone].
  destruct (fit model) as [model_fit|e]; [|exact Hone].
  destruct (forecast model_fit _) as [fc|e]; [|exact Hone].
  destruct (iloc_last _) as [start|e]; [|exact Hone].
  destruct (date_range start _) as [idx|e]; exact Hone.
Qed.

Lemma values_closes (df : DataFrame) :
  values (closes df) = map (fun row => Close (snd row)) df.
Proof.
  unfold closes. rewrite values_column. unfold reset_index.
  rewrite map_map. reflexivity.
Qed.

(** C8.  A run that reaches the forecasting step (the button was clicked,
    the fetched frame is not empty, the ADF test returned) builds one model,
    of order (5, 0, 0), on the closing prices of the fetched frame, and, the
    constructor having returned it, calls fit on it, once and right after:
    the run ends with the exception of the fit if it raises, and plots what
    [forecast] gives for its result otherwise.  (If the constructor itself
    raises, the run ends there, before any fit.)  No run, whatever the user
    entered, builds a model of another order. *)
Theorem model_order_is_fixed (s : Session) (df : DataFrame) (r : adf_tuple) :
  button_clicked s = true ->
  fetched s = Ok df ->
  empty df = false ->
  adfuller (dropna (closes df)) = Ok r ->
  models_built (trace (main s)) = [(closes df, (5, 0, 0))]
  /\ values (closes df) = map (fun row => Close (snd row)) df
  /\ (forall model,
        ARIMA (closes df) (5, 0, 0) = Ok model ->
        filter is_fit_call (trace (main s)) = [call_fit]
        /\ (exists before after,
              trace (main s)
              = before ++ [call_ARIMA (closes df) (5, 0, 0); call_fit]
                  ++ after)
        /\ (forall e, fit model = Raise e -> outcome (main s) = Raise e)
        /\ (forall model_fit fc,
              fit model = Ok model_fit ->
              forecast model_fit (forecast_days_value s) = Ok fc ->
              outcome (main s) = Ok tt
              /\ forecast_values (main s) = Some (values fc)))
  /\ (forall e,
        ARIMA (closes df) (5, 0, 0) = Raise e ->
        outcome (main s) = Raise e
        /\ filter is_fit_call (trace (main s)) = [])
  /\ (forall (s' : Session) endog order,
        In (endog, order) (models_built (trace (main s'))) ->
        order = (5, 0, 0)).
Proof.
  intros Hclick Hfetch Hne Hadf.
  assert (forall (s' : Session) endog order,
            In (endog, order) (models_built (trace (main s'))) ->
            order = (5, 0, 0)) as Horder.
  { intros s' endog order Hin. now apply models_built_order in Hin. }
  pose proof (values_closes df) as Hvalues.
  destruct (main_run s); try congruence; same_results;
    cbn [trace outcome fst snd];
    (split; [reflexivity|]); (split; [exact Hvalues|]);
    (split; [|split; [|exact Horder]]).
  - (* the constructor raised *)
    intros model Hmodel. congruence.
  - intros e' He'. split; [congruence|reflexivity].
  - (* fit raised *)
    intros model' Hmodel'. assert (model' = model) by congruence. subst model'.
    split; [reflexivity|]. split; [|split].
    + exists (prelude ++ fetch_calls s ++ removelast (calls_to_model df r)), [].
      reflexivity.
    + intros e' He'. congruence.
    + intros model_fit fc Hfit' _. congruence.
  - intros e' He'. congruence.
  - (* forecast raised *)
    intros model' Hmodel'. assert (model' = model) by congruence. subst model'.
    split; [reflexivity|]. split; [|split].
    + exists (prelude ++ fetch_calls s ++ removelast (calls_to_model df r)),
             [call_forecast (forecast_days_value s)].
      reflexivity.
    + intros e' He'. congruence.
    + intros model_fit' fc Hfit' Hfc'. congruence.
  - intros e' He'. congruence.
  - (* every call returned *)
    intros model' Hmodel'. assert (model' = model) by congruence. subst model'.
    split; [reflexivity|]. split; [|split].
    + exists (prelude ++ fetch_calls s ++ removelast (calls_to_model df r)),
             ([call_forecast (forecast_days_value s);
               pd_date_range start (forecast_days_value s + 1) "B"]
                ++ render_calls (ticker_text s) df
                     (next_bdays start (forecast_days_value s)) fc).
      reflexivity.
    + intros e' He'. congruence.
    + intros model_fit' fc' Hfit' Hfc'.
      assert (model_fit' = model_fit) by congruence. subst model_fit'.
      assert (fc' = fc) by congruence. subst fc'.
      split; reflexivity.
  - intros e' He'. congruence.
Qed.

(** The library calls of a run are different calls. *)
Ltac distinct_calls :=
  repeat (constructor; [cbn; intuition discriminate|]); constructor.

(** C9 (as the code has it).  An exception ends the run at the library
    call that raised it: the calls of the run are the ones up to that call,
    each library call made once, and no chart or table is rendered.  What
    was rendered before it stays: nothing when the download raised, the
    heading of the stationarity section when the ADF test raised, heading
    and verdict when the model constructor, the fit or the forecast
    raised. *)
Theorem errors_are_terminal (s : Session) (e : exn) :
  outcome (main s) = Raise e ->
  filter is_chart_or_table (trace (main s)) = []
  /\ NoDup (filter is_library_call (trace (main s)))
  /\ (exists before failing,
        trace (main s) = before ++ [failing]
        /\ is_library_call failing = true)
  /\ (   (fetched s = Raise e
          /\ trace (main s) = prelude ++ fetch_calls s
          /\ filter is_output (trace (main s)) = [])
      \/ (exists df, fetched s = Ok df
          /\ adfuller (dropna (closes df)) = Raise e
          /\ trace (main s)
             = prelude ++ fetch_calls s
                 ++ [ADF_HEADING; call_adfuller (dropna (closes df))]
          /\ filter is_output (trace (main s)) = [ADF_HEADING])
      \/ (exists df r, fetched s = Ok df
          /\ adfuller (dropna (closes df)) = Ok r
          /\ filter is_output (trace (main s))
             = [ADF_HEADING; st_info (verdict r)]
          /\ (   (ARIMA (closes df) (5, 0, 0) = Raise e
                  /\ trace (main s)
                     = prelude ++ fetch_calls s ++ calls_to_model df r)
              \/ (exists model,
                    ARIMA (closes df) (5, 0, 0) = Ok model
                    /\ fit model = Raise e
                    /\ trace (main s)
                       = prelude ++ fetch_calls s ++ calls_to_model df r
                           ++ [call_fit])
              \/ (exists model model_fit,
                    ARIMA (closes df) (5, 0, 0) = Ok model
                    /\ fit model = Ok model_fit
                    /\ forecast model_fit (forecast_days_value s) = Raise e
                    /\ trace (main s)
                       = prelude ++ fetch_calls s ++ calls_to_model df r
                           ++ [call_fit;
                               call_forecast (forecast_days_value s)])))).
Proof.
  assert (forall (t : list call) (c : call),
            is_library_call c = true ->
            exists before failing,
              prelude ++ fetch_calls s ++ t ++ [c] = before ++ [failing]
              /\ is_library_call failing = true) as Hlast.
  { intros t c Hc. exists (prelude ++ fetch_calls s ++ t), c.
    split; [|exact Hc]. now rewrite <- !app_assoc. }
  destruct (main_run s); cbn [trace outcome fst snd]; try discriminate;
    intros [= ->]; (split; [reflexivity|]);
    (split; [cbn; distinct_calls|]); split.
  - exists (prelude ++ [st_spinner "Fetching data... please wait ⏳"]),
           (yf_download (ticker_text s) (start_date_picked s) (today s)).
    split; reflexivity.
  - left. now repeat split.
  - apply (Hlast [ADF_HEADING] (call_adfuller (dropna (closes df))) eq_refl).
  - right. left. exists df. now repeat split.
  - apply (Hlast (removelast (calls_to_model df r))
                 (call_ARIMA (closes df) (5, 0, 0)) eq_refl).
  - right. right. exists df, r. repeat (split; [easy|]). left. now split.
  - apply (Hlast (calls_to_model df r) call_fit eq_refl).
  - right. right. exists df, r. repeat (split; [easy|]).
    right. left. exists model. now repeat split.
  - apply (Hlast (calls_to_model df r ++ [call_fit])
                 (call_forecast (forecast_days_value s)) eq_refl).
  - right. right. exists df, r. repeat (split; [easy|]).
    right. right. exists model, model_fit. now repeat split.
Qed.

End Failures.

(** Three days of prices are too few for the ADF test. *)
Lemma adf_failure_propagates_witness :
  outcome (@main (Sample.provider Sample.frame3)
                 (Sample.statsmodels 0.01) (Sample.session "1299.HK" 10))
  = Raise (ValueError
      "sample size is too short to use selected regression component").
Proof.
  pose proof (@adf_failure_propagates
                (Sample.provider Sample.frame3) (Sample.statsmodels 0.01)
                (Sample.session "1299.HK" 10) Sample.frame3 _
                eq_refl eq_refl eq_refl eq_refl) as [_ [Hrun _]].
  rewrite Hrun. reflexivity.
Defined.

(** On three rows without prices the frame is not empty and the series
    tested, the closing prices without the missing ones, has no entry:
    [adfuller] fails in [x.max()], with numpy's exception for a reduction
    of an empty array.  The run ends with that exception, uncaught, and has
    issued no [st.error] message.  So it is not the case that a series too
    short for the test is reported by a message of the script instead of a
    numerical exception that propagates unhandled. *)
Lemma adf_failure_is_unhandled :
  let run := @main (Sample.provider Sample.unpriced3)
                   (Sample.statsmodels 0.01)
                   (Sample.session "1299.HK" 10) in
  empty Sample.unpriced3 = false
  /\ dropna (closes Sample.unpriced3) = []
  /\ outcome run
     = Raise (ValueError
         "zero-size array to reduction operation maximum which has no identity")
  /\ filter is_st_error (trace run) = []
  /\ ~ ((exists msg, In (st_error msg) (trace run))
        /\ outcome run = Ok tt).
Proof.
  cbv zeta. split; [reflexivity|]. split; [reflexivity|].
  split; [reflexivity|]. split; [reflexivity|].
  intros [_ Hout]. vm_compute in Hout. discriminate.
Qed.

Lemma model_order_is_fixed_witness :
  models_built
    (trace (@main (Sample.provider Sample.frame8)
                  (Sample.statsmodels 0.01)
                  (Sample.session "1299.HK" 10)))
  = [(closes Sample.frame8, (5, 0, 0))].
Proof.
  apply (@model_order_is_fixed
           (Sample.provider Sample.frame8) (Sample.statsmodels 0.01)
           (Sample.session "1299.HK" 10) Sample.frame8
           (mk_adf (-3.5)%float 0.01%float 0 8 [] 0%float)
           eq_refl eq_refl eq_refl eq_refl).
Defined.

Lemma errors_are_terminal_witness :
  filter is_chart_or_table
    (trace (@main (Sample.provider Sample.flat5)
                  (Sample.statsmodels 0.01)
                  (Sample.session "1299.HK" 10)))
  = [].
Proof.
  apply (@errors_are_terminal
           (Sample.provider Sample.flat5) (Sample.statsmodels 0.01)
           (Sample.session "1299.HK" 10)
           (ValueError "Invalid input, x is constant") eq_refl).
Defined.

(** On five days of an unchanged price the frame is fetched, the heading of
    the stationarity section is shown, and [adfuller] refuses the constant
    series: the run ends with its exception and the heading stays on the
    page, without verdict, chart or table.  So it is not the case that a
    failing step leaves no partial output. *)
Lemma adf_failure_leaves_heading :
  let run := @main (Sample.provider Sample.flat5)
                   (Sample.statsmodels 0.01)
                   (Sample.session "1299.HK" 10) in
  outcome run = Raise (ValueError "Invalid input, x is constant")
  /\ filter is_output (trace run) = [ADF_HEADING]
  /\ filter is_chart_or_table (trace run) = []
  /\ ~ ((exists e, outcome run = Raise e) ->
        filter is_output (trace run) = []).
Proof.
  cbv zeta. split; [reflexivity|]. split; [reflexivity|].
  split; [reflexivity|].
  intros H. assert (Hraise : exists e,
    outcome (@main (Sample.provider Sample.flat5)
                   (Sample.statsmodels 0.01)
                   (Sample.session "1299.HK" 10)) = Raise e).
  { eexists. reflexivity. }
  specialize (H Hraise). vm_compute in H. discriminate.
Qed.

(** ** Two runs *)

Section TwoRuns.

Import CalendarFacts.

(** The series the script tests and fits is the close column numbered from
    0: neither the dates nor the other columns of the frame are in it. *)
Lemma closes_enumerates (df : DataFrame) :
  closes df =
  combine (RangeIndex (length (map (fun row => Close (snd row)) df)))
          (map (fun row => Close (snd row)) df).
Proof.
  unfold closes, column, reset_index.
  rewrite !length_map, map_map. reflexivity.
Qed.

Lemma closes_length (df : DataFrame) : length (closes df) = length df.
Proof.
  rewrite closes_enumerates, length_combine. unfold RangeIndex.
  rewrite length_seq, length_map. apply Nat.min_id.
Qed.

Lemma closes_same_empty (df1 df2 : DataFrame) :
  closes df1 = closes df2 -> empty df1 = empty df2.
Proof.
  intros H. apply (f_equal (@length _)) in H. rewrite !closes_length in H.
  destruct df1, df2; try discriminate; reflexivity.
Qed.

(** Two runs against the same statsmodels whose fetched frames give the
    same closing-price series and whose horizons are equal: they end the
    same way, and plot the same forecast values if they plot any. *)
Lemma runs_agree_on_closes {sm : Statsmodels} (yf1 yf2 : Provider)
    (s1 s2 : Session) (df1 df2 : DataFrame) :
  button_clicked s1 = button_clicked s2 ->
  @fetched yf1 s1 = Ok df1 ->
  @fetched yf2 s2 = Ok df2 ->
  closes df1 = closes df2 ->
  forecast_days_value s1 = forecast_days_value s2 ->
  forecast_values (@main yf1 sm s1) = forecast_values (@main yf2 sm s2)
  /\ outcome (@main yf1 sm s1) = outcome (@main yf2 sm s2).
Proof.
  intros Hclick Hf1 Hf2 Hcloses Hh.
  rewrite !main_unfold, <- Hclick.
  destruct (button_clicked s1); [|split; reflexivity].
  rewrite !generate_unfold, Hf1, Hf2.
  rewrite <- (closes_same_empty df1 df2 Hcloses).
  destruct (empty df1) eqn:Hne1; [split; reflexivity|].
  assert (Hne2 : empty df2 = false)
    by now rewrite <- (closes_same_empty df1 df2 Hcloses).
  rewrite !present_unfold, !iloc_last_Date, <- Hcloses, <- Hh.
  destruct (last_date_nonempty df1 Hne1) as [start1 ->].
  destruct (last_date_nonempty df2 Hne2) as [start2 ->].
  destruct (adfuller _) as [r|e]; [|split; reflexivity].
  destruct (ARIMA _ _) as [model|e]; [|split; reflexivity].
  destruct (fit model) as [model_fit|e]; [|split; reflexivity].
  destruct (forecast model_fit _) as [fc|e]; [|split; reflexivity].
  rewrite !date_range_bdays. split; reflexivity.
Qed.

(** C10.  Two runs whose fetched frames have the same close column and
    whose horizons are equal plot the same forecast values and end the same
    way, whatever the dates, the other columns, the tickers, the start dates
    and the days of the runs. *)
Theorem forecast_depends_on_closes_only {sm : Statsmodels}
    (yf1 yf2 : Provider) (s1 s2 : Session) (df1 df2 : DataFrame) :
  button_clicked s1 = true ->
  button_clicked s2 = true ->
  @fetched yf1 s1 = Ok df1 ->
  @fetched yf2 s2 = Ok df2 ->
  map (fun row => Close (snd row)) df1 = map (fun row => Close (snd row)) df2 ->
  forecast_days_value s1 = forecast_days_value s2 ->
  forecast_values (@main yf1 sm s1) = forecast_values (@main yf2 sm s2)
  /\ outcome (@main yf1 sm s1) = outcome (@main yf2 sm s2)
  /\ models_built (trace (@main yf1 sm s1))
     = models_built (trace (@main yf2 sm s2)).
Proof.
  intros Hc1 Hc2 Hf1 Hf2 Hcol Hh.
  assert (Hcloses : closes df1 = closes df2)
    by now rewrite !closes_enumerates, Hcol.
  destruct (runs_agree_on_closes yf1 yf2 s1 s2 df1 df2) as [Hv Ho];
    try congruence.
  split; [exact Hv|]. split; [exact Ho|].
  rewrite !main_unfold, Hc1, Hc2, !generate_unfold, Hf1, Hf2.
  rewrite <- (closes_same_empty df1 df2 Hcloses).
  destruct (empty df1) eqn:Hne1; [reflexivity|].
  rewrite !present_unfold. unfold calls_to_model. rewrite <- Hcloses, <- Hh.
  destruct (adfuller _) as [r|e]; [|reflexivity].
  destruct (ARIMA _ _) as [model|e]; [|reflexivity].
  destruct (fit model) as [model_fit|e]; [|reflexivity].
  destruct (forecast model_fit _) as [fc|e]; [|reflexivity].
  destruct (iloc_last (column Date (reset_index df1))) as [start1|e1];
    destruct (iloc_last (column Date (reset_index df2))) as [start2|e2];
    try reflexivity;
    try (destruct (date_range start1 _)); try (destruct (date_range start2 _));
    reflexivity.
Qed.

End TwoRuns.

Lemma forecast_depends_on_closes_only_witness :
  forecast_values
    (@main (Sample.provider Sample.frame8) (Sample.statsmodels 0.01)
           (Sample.session "1299.HK" 10))
  = forecast_values
    (@main (Sample.provider Sample.frame8') (Sample.statsmodels 0.01)
           (mk_Session "0005.HK" (ymd 2023 1 1) 10 true (ymd 2023 2 1))).
Proof.
  apply (@forecast_depends_on_closes_only (Sample.statsmodels 0.01)
           (Sample.provider Sample.frame8) (Sample.provider Sample.frame8')
           (Sample.session "1299.HK" 10)
           (mk_Session "0005.HK" (ymd 2023 1 1) 10 true (ymd 2023 2 1))
           Sample.frame8 Sample.frame8'
           eq_refl eq_refl eq_refl eq_refl eq_refl eq_refl).
Defined.

(** * Further properties of the script *)


(** ** What a run calls and shows *)

Section RunFacts.

Context {yf : Provider} {sm : Statsmodels}.

(** X1.  A run downloads only when the button was clicked, and then once:
    for the ticker and the start date entered, up to the day of the run. *)
Theorem download_once_with_query (s : Session) :
  filter is_download (trace (main s)) =
  if button_clicked s
  then [yf_download (ticker_text s) (start_date_picked s) (today s)]
  else [].
Proof.
  destruct (main_run s);
    match goal with H : button_clicked s = _ |- _ => rewrite H end;
    reflexivity.
Qed.

(** X2.  The library calls of a run are an initial part of one fixed
    sequence: the download, the ADF test on the closing prices without
    missing values, the ARIMA(5,0,0) constructor on the closing prices, the
    fit and the forecast for the number of days entered.  The part made is
    decided call by call: a call is made when the button was clicked, the
    ones before it have returned and, for the statsmodels calls, the frame
    is not empty.  So no call is made twice, none is skipped, and none is
    made after one that raised. *)
Theorem library_calls_follow_plan (s : Session) :
  filter is_library_call (trace (main s)) = calls_until_raise s
  /\ exists rest,
       filter is_library_call (trace (main s)) ++ rest = library_plan s.
Proof.
  unfold library_plan, calls_until_raise.
  destruct (main_run s);
    repeat match goal with
    | H : button_clicked s = _ |- _ => rewrite H; clear H
    | H : fetched s = _ |- _ => rewrite H; clear H
    | H : empty _ = _ |- _ => rewrite H; clear H
    | H : adfuller _ = _ |- _ => rewrite H; clear H
    | H : ARIMA _ _ = _ |- _ => rewrite H; clear H
    | H : fit _ = _ |- _ => rewrite H; clear H
    | H : forecast _ _ = _ |- _ => rewrite H; clear H
    end;
    (split; [reflexivity|]); eexists; reflexivity.
Qed.

(** X3.  The only error message the script ever shows is the one for
    missing data, and it shows it only when the button was clicked and the
    fetched frame is empty. *)
Theorem error_message_only_for_no_data (s : Session) (msg : string) :
  In (st_error msg) (trace (main s)) ->
  msg = NO_DATA
  /\ button_clicked s = true
  /\ exists df, fetched s = Ok df /\ empty df = true.
Proof.
  intros Hin.
  assert (In (st_error msg) (filter is_st_error (trace (main s)))) as Hf
    by (apply filter_In; now split).
  clear Hin. revert Hf.
  destruct (main_run s); cbn; try tauto.
  intros [[= <-]|[]]. split; [reflexivity|]. split; [assumption|].
  now exists df.
Qed.

(** X4.  A run draws the chart exactly when it was started by the button,
    fetched a non-empty frame and ended normally; it draws at most one
    chart, and shows the table exactly when it draws the chart. *)
Theorem chart_iff_run_completes (s : Session) :
  (charts (trace (main s)) <> [] <->
   exists df, button_clicked s = true /\ fetched s = Ok df
              /\ empty df = false /\ outcome (main s) = Ok tt)
  /\ (length (charts (trace (main s))) <= 1)%nat
  /\ length (tables (trace (main s))) = length (charts (trace (main s))).
Proof.
  assert (forall P : DataFrame -> Prop,
            (forall df, ~ P df) -> (@nil Figure <> [] <-> exists df, P df))
    as Hnone.
  { intros P HP. split; [congruence|]. intros [df Hdf]. now apply HP in Hdf. }
  destruct (main_run s); cbn [trace outcome fst snd];
    (split; [|split; [cbn; lia|reflexivity]]);
    try (apply Hnone; intros df' [? [? [? ?]]]; congruence).
  split; [intros _; now exists df|cbn; congruence].
Qed.

(** X5.  A run ends normally in three cases only: the button was not
    clicked; the fetched frame is empty; or the download and all four
    statsmodels calls returned.  Nothing else in the script can raise. *)
Theorem run_ends_normally_iff (s : Session) :
  outcome (main s) = Ok tt <->
  button_clicked s = false
  \/ exists df, fetched s = Ok df
       /\ (empty df = true
           \/ exists r model model_fit fc,
                adfuller (dropna (closes df)) = Ok r
                /\ ARIMA (closes df) (5, 0, 0) = Ok model
                /\ fit model = Ok model_fit
                /\ forecast model_fit (forecast_days_value s) = Ok fc).
Proof.
  destruct (main_run s); cbn [outcome snd]; split;
    try discriminate; try (intros _; now left);
    try (intros _; right; exists df; split; [assumption|now left]);
    try (intros _; right; exists df; split; [assumption|right];
         exists r, model, model_fit, fc; now repeat split);
    intros [Hidle|[df' [Hdf' [Hempty|[r' [m' [mf' [fc' [? [? [? ?]]]]]]]]]]];
    congruence.
Qed.

(** X6.  When every library call returns, the run ends normally and has
    shown, in this order: the heading of the stationarity section, the
    verdict, the chart (of the fetched rows, and of the forecast against the
    business days after the last row), the heading of the data section and
    the table of the fetched rows. *)
Theorem complete_run_outputs (s : Session) (df : DataFrame) (r : adf_tuple)
    (model : Model) (model_fit : Results) (fc : Series float) :
  button_clicked s = true ->
  fetched s = Ok df ->
  empty df = false ->
  adfuller (dropna (closes df)) = Ok r ->
  ARIMA (closes df) (5, 0, 0) = Ok model ->
  fit model = Ok model_fit ->
  forecast model_fit (forecast_days_value s) = Ok fc ->
  outcome (main s) = Ok tt
  /\ exists start,
       last_date df = Some start
       /\ filter is_output (trace (main s)) =
          [ ADF_HEADING;
            st_info (verdict r);
            st_plotly_chart
              (build_figure (ticker_text s) (reset_index df)
                 (next_bdays start (forecast_days_value s)) fc) true;
            DATA_HEADING;
            st_dataframe (reset_index df) ].
Proof.
  intros Hclick Hfetch Hne Hadf Hmodel Hfit Hfc.
  destruct (main_run s); try congruence; same_results; try congruence.
  split; [reflexivity|]. exists start. split; [assumption|reflexivity].
Qed.

(** X7.  Every chart a run draws has two traces.  The first, "Actual
    Price", plots the closing price of every fetched row against its date,
    in the order of the rows, as a solid line; the second, "Forecast", is
    dashed; the title names the ticker entered. *)
Theorem chart_plots_fetched_rows (s : Session) (fig : Figure) :
  In fig (charts (trace (main s))) ->
  exists df actual predicted lay,
    fetched s = Ok df
    /\ data fig = [actual; predicted]
    /\ name actual = "Actual Price"
    /\ x actual = map fst df
    /\ y actual = map (fun row => Close (snd row)) df
    /\ line_dash (line actual) = None
    /\ name predicted = "Forecast"
    /\ line_dash (line predicted) = Some "dash"
    /\ layout fig = Some lay
    /\ title lay = (ticker_text s ++ " — Actual vs Forecasted Prices")%string.
Proof.
  destruct (main_run s); read_trace; try solve [intros []].
  intros [<-|[]]. exists df. do 3 eexists.
  split; [assumption|]. split; [reflexivity|].
  cbn [name x y line line_dash layout title build_figure update_layout
       add_trace empty_figure data app].
  rewrite !values_column. unfold reset_index. rewrite !map_map.
  cbn [Date close_of bar]. repeat split.
Qed.

Lemma reset_index_round_trip (df : DataFrame) :
  set_index_Date (reset_index df) = df.
Proof.
  unfold set_index_Date, reset_index. rewrite map_map.
  rewrite <- (map_id df) at 2. apply map_ext. now intros [d b].
Qed.

(** X8.  Every table a run shows holds the fetched rows, all of them, in
    their order and unchanged: putting its "Date" column back as the index
    gives the fetched frame. *)
Theorem table_shows_fetched_rows (s : Session) (t : FlatFrame) :
  In t (tables (trace (main s))) ->
  exists df,
    fetched s = Ok df
    /\ set_index_Date t = df
    /\ length t = length df
    /\ map Date t = map fst df.
Proof.
  destruct (main_run s); read_trace; try solve [intros []].
  intros [<-|[]]. exists df. split; [assumption|].
  split; [apply reset_index_round_trip|].
  unfold reset_index. rewrite length_map, map_map. split; reflexivity.
Qed.

(** X9.  Every verdict a run shows is the one computed from the ADF test of
    the closing prices of the fetched frame, and is one of the two
    messages. *)
Theorem verdict_shown_is_computed (s : Session) (body : string) :
  In body (verdicts_shown (trace (main s))) ->
  exists df r,
    fetched s = Ok df
    /\ adfuller (dropna (closes df)) = Ok r
    /\ body = verdict r
    /\ (body = STATIONARY \/ body = NOT_STATIONARY).
Proof.
  assert (forall r, verdict r = STATIONARY \/ verdict r = NOT_STATIONARY)
    as Htwo.
  { intros r. unfold verdict. destruct (pvalue r <? 0.05)%float; auto. }
  destruct (main_run s); read_trace; try solve [intros []];
    intros [<-|[]]; exists df, r; auto.
Qed.

End RunFacts.

(** ** Missing values *)

Section MissingValues.

Context {yf : Provider} {sm : Statsmodels}.

Lemma dropna_idempotent (series : Series float) :
  dropna (dropna series) = dropna series.
Proof.
  unfold dropna. induction series as [|e l IH]; [reflexivity|].
  cbn [filter]. destruct (negb (PrimFloat.is_nan (snd e))) eqn:He.
  - cbn [filter]. rewrite He. now f_equal.
  - exact IH.
Qed.

Lemma dropna_length (series : Series float) :
  (length (dropna series) <= length series)%nat.
Proof.
  unfold dropna. induction series as [|e l IH]; [apply Nat.le_refl|].
  cbn [filter]. destruct (negb (PrimFloat.is_nan (snd e))); simpl; lia.
Qed.

(** A series is left as it is exactly when it has no missing value. *)
Lemma dropna_fixed_iff (series : Series float) :
  dropna series = series <->
  Forall (fun e => PrimFloat.is_nan (snd e) = false) series.
Proof.
  split; [|apply dropna_complete].
  induction series as [|e l IH]; [constructor|].
  unfold dropna. cbn [filter]. fold (dropna l).
  destruct (PrimFloat.is_nan (snd e)) eqn:He; cbn [negb].
  - intros Heq. pose proof (dropna_length l) as Hlen.
    rewrite Heq in Hlen. simpl in Hlen. lia.
  - intros [= Heq]. constructor; auto.
Qed.

(** X10.  Missing values have no part in the stationarity check: the
    check makes the same call and gives the same answer, or raises the same
    exception, on any two series that are equal once their missing values
    are dropped; in particular on a series and on what is left of it
    without them. *)
Theorem missing_values_do_not_affect_check (series : Series float) :
  check_stationarity (dropna series) = check_stationarity series
  /\ (forall series',
        dropna series' = dropna series ->
        check_stationarity series' = check_stationarity series).
Proof.
  split.
  - rewrite !check_stationarity_unfold, dropna_idempotent. reflexivity.
  - intros series' Heq. rewrite !check_stationarity_unfold, Heq. reflexivity.
Qed.

Lemma map_fst_combine {A B} (l : list A) (k : list B) :
  length l = length k -> map fst (combine l k) = l.
Proof.
  revert k. induction l as [|a l IH]; intros [|b k] Hlen;
    try discriminate; [reflexivity|].
  simpl. f_equal. apply IH. now injection Hlen.
Qed.

(** After [reset_index], the closing prices are labelled by position. *)
Lemma closes_labels (df : DataFrame) :
  map fst (closes df) = RangeIndex (length df).
Proof.
  rewrite closes_enumerates, length_map. apply map_fst_combine.
  unfold RangeIndex. now rewrite length_seq, length_map.
Qed.

(** X11.  The ADF test and the model are not given the same series: the
    model gets the closing price of every fetched row, on the labels
    0, 1, 2, ..., missing values included, and the test gets that series
    without its missing values.  The two are equal only when no closing
    price is missing. *)
Theorem model_keeps_missing_values (s : Session) (tested endog : Series float)
    (order : Z * Z * Z) :
  In tested (series_tested (trace (main s))) ->
  In (endog, order) (models_built (trace (main s))) ->
  exists df,
    fetched s = Ok df
    /\ tested = dropna endog
    /\ length endog = length df
    /\ map fst endog = RangeIndex (length df)
    /\ values endog = map (fun row => Close (snd row)) df
    /\ (tested = endog <->
        Forall (fun row => PrimFloat.is_nan (Close (snd row)) = false) df).
Proof.
  destruct (main_run s); read_trace; try solve [intros []];
    try solve [intros _ []];
    intros [<-|[]] [[= <- <-]|[]]; exists df;
    (split; [assumption|]); (split; [reflexivity|]);
    (split; [apply closes_length|]);
    (split; [apply closes_labels|split; [apply values_closes|]]);
    rewrite dropna_fixed_iff;
    rewrite <- (Forall_map snd (fun v => PrimFloat.is_nan v = false)
                  (closes df));
    fold (values (closes df)); rewrite values_closes, Forall_map;
    reflexivity.
Qed.

End MissingValues.

(** ** More on forecast dates *)

Section MoreForecastDates.

Import CalendarFacts.

(** The business day after the one a date is rolled forward to. *)
Lemma day_after_rollforward (start : date) :
  bday_apply 1 (rollforward start)
  = start + first_forecast_gap (weekday start).
Proof.
  unfold rollforward, is_on_offset, first_forecast_gap.
  pose proof (weekday_range start) as Hwd.
  destruct (Z.ltb_spec (weekday start) 5) as [Hon|Hoff].
  - rewrite bday_apply_1.
    destruct (Z.ltb_spec (weekday start) 4); [reflexivity|].
    destruct (Z.eqb_spec (weekday start) 6); [lia|].
    destruct (Z.ltb_spec (weekday start) 5); [reflexivity|lia].
  - assert (weekday (bday_apply 1 start) = 0) as Hmon.
    { rewrite weekday_next.
      destruct (Z.ltb_spec (weekday start) 4); [lia|reflexivity]. }
    rewrite (bday_apply_1 (bday_apply 1 start)), Hmon.
    rewrite (bday_apply_1 start).
    destruct (Z.ltb_spec (weekday start) 4); [lia|].
    destruct (Z.ltb_spec (weekday start) 5); [lia|].
    change (0 <? 4) with true. cbn iota.
    destruct (Z.eqb_spec (weekday start) 6); lia.
Qed.

(** X12.  For a horizon of at least one day, the first forecast date is
    the day after the last historical date when that is a Monday to
    Thursday, the Monday after it when it is a Friday, and the Tuesday
    after it when it is a Saturday or a Sunday: a last date on a weekend is
    moved to the Monday first, and the first entry of the range is
    dropped. *)
Theorem first_forecast_date_by_weekday (df : DataFrame) (h : Z)
    (start : date) :
  last_date df = Some start ->
  1 <= h ->
  exists rest,
    outcome (make_forecast_dates (reset_index df) h)
    = Ok (start + first_forecast_gap (weekday start) :: rest)
    /\ (weekday start = 5 \/ weekday start = 6 ->
        weekday (start + first_forecast_gap (weekday start)) = 1).
Proof.
  intros Hlast Hh. rewrite (make_forecast_dates_ok df h start Hlast).
  unfold next_bdays. replace (Z.to_nat h) with (S (Z.to_nat (h - 1))) by lia.
  cbn [bdays_from outcome snd]. rewrite day_after_rollforward.
  eexists. split; [reflexivity|].
  unfold first_forecast_gap. intros [Hwd|Hwd]; rewrite Hwd; cbn;
    apply weekday_shift_week; lia.
Qed.

Lemma bdays_from_adjacent (n : nat) (d0 : date) (before after : list date)
    (d d' : date) :
  is_on_offset d0 = true ->
  bdays_from n d0 = before ++ d :: d' :: after ->
  is_on_offset d = true /\ d' = bday_apply 1 d.
Proof.
  revert d0 before. induction n as [|n IH]; intros d0 before Hon Heq.
  - destruct before; discriminate.
  - destruct before as [|b before]; cbn [bdays_from app] in Heq.
    + injection Heq as <- Hrest.
      destruct n as [|n]; [discriminate|].
      cbn [bdays_from] in Hrest. injection Hrest as <- _. now split.
    + injection Heq as <- Hrest.
      apply (IH _ before (next_bday_on d0) Hrest).
Qed.

(** X13.  Between two forecast dates that follow each other there is no gap
    but the weekend: the later one is the next day, or three days later when
    the earlier one is a Friday. *)
Theorem forecast_dates_skip_only_weekends (df : DataFrame) (h : Z)
    (dates before after : list date) (d d' : date) :
  outcome (make_forecast_dates (reset_index df) h) = Ok dates ->
  dates = before ++ d :: d' :: after ->
  d' = d + (if weekday d =? 4 then 3 else 1).
Proof.
  rewrite make_forecast_dates_unfold, iloc_last_Date.
  destruct (last_date df) as [start|]; [|discriminate].
  destruct (tl_date_range start h) as [idx [-> ->]].
  cbn [outcome snd]. intros [= <-] Heq.
  destruct (bdays_from_adjacent _ _ _ _ _ _
              (next_bday_on (rollforward start)) Heq) as [Hon ->].
  rewrite bday_apply_1. unfold is_on_offset in Hon. apply Z.ltb_lt in Hon.
  pose proof (weekday_range d).
  destruct (Z.eqb_spec (weekday d) 4) as [->|Hne]; [reflexivity|].
  destruct (Z.ltb_spec (weekday d) 4); [reflexivity|lia].
Qed.

Lemma bdays_from_firstn (n m : nat) (d : date) :
  (n <= m)%nat -> firstn n (bdays_from m d) = bdays_from n d.
Proof.
  revert m d. induction n as [|n IH]; intros m d Hle; [reflexivity|].
  destruct m as [|m]; [lia|].
  cbn [bdays_from firstn]. f_equal. apply IH. lia.
Qed.

(** X14.  A longer horizon only adds dates at the end: the forecast dates
    for a horizon are the first ones of the forecast dates for any longer
    horizon on the same frame. *)
Theorem longer_horizon_extends_dates (df : DataFrame) (h h' : Z)
    (dates dates' : list date) :
  outcome (make_forecast_dates (reset_index df) h) = Ok dates ->
  outcome (make_forecast_dates (reset_index df) h') = Ok dates' ->
  h <= h' ->
  dates = firstn (length dates) dates'.
Proof.
  rewrite !make_forecast_dates_unfold, iloc_last_Date.
  destruct (last_date df) as [start|]; [|discriminate].
  destruct (tl_date_range start h) as [idx [-> ->]].
  destruct (tl_date_range start h') as [idx' [-> ->]].
  cbn [outcome snd]. intros [= <-] [= <-] Hle.
  rewrite next_bdays_length. unfold next_bdays.
  symmetry. apply bdays_from_firstn. lia.
Qed.

End MoreForecastDates.

(** ** More on what a run calls and shows *)

Section MoreRunFacts.

Context {yf : Provider} {sm : Statsmodels}.

(** X15.  Every run begins with the same eight calls, whatever was entered
    and whatever the libraries do: the page configuration first, then the
    title, the three input widgets, the date of the day and the button. *)
Theorem every_run_starts_with_page_setup (s : Session) :
  exists rest,
    trace (main s) = prelude ++ rest
    /\ hd_error (trace (main s))
       = Some (st_set_page_config "Stock Forecast Dashboard" "wide" "📈")
    /\ Forall (fun c => is_library_call c = false) prelude.
Proof.
  destruct (main_run s); cbn [trace fst]; eexists;
    (split; [|split; [reflexivity|]]);
    try (repeat constructor);
    reflexivity.
Qed.

(** X16.  Every chart a run draws plots, as its second trace, the values
    [forecast] returned, all of them and unchanged, with lines and markers,
    against the forecast dates the script constructs from the date of the
    last fetched row (the business-day range from that date without its
    first entry), as many as the horizon: the script does not compare the
    two lengths. *)
Theorem chart_plots_forecast (s : Session) (fig : Figure) :
  In fig (charts (trace (main s))) ->
  exists df model model_fit fc start predicted,
    fetched s = Ok df
    /\ ARIMA (closes df) (5, 0, 0) = Ok model
    /\ fit model = Ok model_fit
    /\ forecast model_fit (forecast_days_value s) = Ok fc
    /\ last_date df = Some start
    /\ forecast_trace fig = Some predicted
    /\ y predicted = values fc
    /\ outcome (make_forecast_dates (reset_index df) (forecast_days_value s))
       = Ok (x predicted)
    /\ x predicted = next_bdays start (forecast_days_value s)
    /\ length (x predicted) = Z.to_nat (forecast_days_value s)
    /\ mode predicted = "lines+markers".
Proof.
  destruct (main_run s); read_trace; try solve [intros []].
  intros [<-|[]]. exists df, model, model_fit, fc, start. eexists.
  repeat (split; [eassumption|]).
  split; [reflexivity|]. cbn [x y mode].
  split; [reflexivity|]. split.
  { now rewrite (make_forecast_dates_ok df _ start). }
  repeat split. apply next_bdays_length.
Qed.

Lemma dropna_all_missing (series : Series float) :
  Forall (fun e => PrimFloat.is_nan (snd e) = true) series ->
  dropna series = [].
Proof.
  induction 1 as [|e l He Hl IH]; [reflexivity|].
  unfold dropna in *. cbn [filter]. rewrite He. exact IH.
Qed.

(** X17.  A series in which every value is missing is tested as the empty
    series: the check has no guard of its own, and answers or raises as the
    ADF test does on no observations. *)
Theorem all_missing_is_tested_as_empty (series : Series float) :
  Forall (fun e => PrimFloat.is_nan (snd e) = true) series ->
  check_stationarity series =
  ([call_adfuller []],
   match adfuller [] with
   | Ok r => Ok (verdict r)
   | Raise e => Raise e
   end).
Proof.
  intros Hall. rewrite check_stationarity_unfold, (dropna_all_missing _ Hall).
  destruct (adfuller []); reflexivity.
Qed.

End MoreRunFacts.

(** ** The further properties on sample runs *)

(** Find a call in a computed list of calls. *)
Ltac find_in := vm_compute; repeat (first [left; reflexivity | right]).

Lemma error_message_only_for_no_data_witness :
  exists df,
    @fetched (Sample.provider []) (Sample.session "NOPE" 10) = Ok df
    /\ empty df = true.
Proof.
  apply (@error_message_only_for_no_data
           (Sample.provider []) (Sample.statsmodels 0.01)
           (Sample.session "NOPE" 10) NO_DATA).
  find_in.
Defined.

Lemma complete_run_outputs_witness :
  outcome (@main (Sample.provider Sample.frame8)
                 (Sample.statsmodels 0.01) (Sample.session "1299.HK" 10))
  = Ok tt.
Proof.
  apply (@complete_run_outputs
           (Sample.provider Sample.frame8) (Sample.statsmodels 0.01)
           (Sample.session "1299.HK" 10) Sample.frame8
           (mk_adf (-3.5)%float 0.01%float 0 8 [] 0%float)
           (closes Sample.frame8) (closes Sample.frame8)
           (combine (seq 8 10) (repeat 108%float 10))
           eq_refl eq_refl eq_refl eq_refl eq_refl eq_refl eq_refl).
Defined.

Lemma chart_plots_fetched_rows_witness :
  exists df actual predicted lay,
    @fetched (Sample.provider Sample.frame8) (Sample.session "1299.HK" 10)
      = Ok df
    /\ data (build_figure "1299.HK" (reset_index Sample.frame8)
               (next_bdays (ymd 2024 1 11) 10)
               (combine (seq 8 10) (repeat 108%float 10)))
       = [actual; predicted]
    /\ name actual = "Actual Price"
    /\ x actual = map fst df
    /\ y actual = map (fun row => Close (snd row)) df
    /\ line_dash (line actual) = None
    /\ name predicted = "Forecast"
    /\ line_dash (line predicted) = Some "dash"
    /\ layout (build_figure "1299.HK" (reset_index Sample.frame8)
                 (next_bdays (ymd 2024 1 11) 10)
                 (combine (seq 8 10) (repeat 108%float 10)))
       = Some lay
    /\ title lay = "1299.HK — Actual vs Forecasted Prices".
Proof.
  apply (@chart_plots_fetched_rows
           (Sample.provider Sample.frame8) (Sample.statsmodels 0.01)
           (Sample.session "1299.HK" 10)
           (build_figure "1299.HK" (reset_index Sample.frame8)
              (next_bdays (ymd 2024 1 11) 10)
              (combine (seq 8 10) (repeat 108%float 10)))).
  vm_compute. left. reflexivity.
Defined.

Lemma table_shows_fetched_rows_witness :
  exists df,
    @fetched (Sample.provider Sample.frame8) (Sample.session "1299.HK" 10)
      = Ok df
    /\ set_index_Date (reset_index Sample.frame8) = df
    /\ length (reset_index Sample.frame8) = length df
    /\ map Date (reset_index Sample.frame8) = map fst df.
Proof.
  apply (@table_shows_fetched_rows
           (Sample.provider Sample.frame8) (Sample.statsmodels 0.01)
           (Sample.session "1299.HK" 10) (reset_index Sample.frame8)).
  vm_compute. left. reflexivity.
Defined.

Lemma verdict_shown_is_computed_witness :
  exists df r,
    @fetched (Sample.provider Sample.frame8) (Sample.session "1299.HK" 10)
      = Ok df
    /\ @adfuller (Sample.statsmodels 0.01) (dropna (closes df)) = Ok r
    /\ STATIONARY = verdict r
    /\ (STATIONARY = STATIONARY \/ STATIONARY = NOT_STATIONARY).
Proof.
  apply (@verdict_shown_is_computed
           (Sample.provider Sample.frame8) (Sample.statsmodels 0.01)
           (Sample.session "1299.HK" 10) STATIONARY).
  vm_compute. left. reflexivity.
Defined.

Lemma model_keeps_missing_values_witness :
  exists df,
    @fetched (Sample.provider Sample.frame8) (Sample.session "1299.HK" 10)
      = Ok df
    /\ dropna (closes Sample.frame8) = dropna (closes Sample.frame8)
    /\ length (closes Sample.frame8) = length df
    /\ map fst (closes Sample.frame8) = RangeIndex (length df)
    /\ values (closes Sample.frame8) = map (fun row => Close (snd row)) df
    /\ (dropna (closes Sample.frame8) = closes Sample.frame8 <->
        Forall (fun row => PrimFloat.is_nan (Close (snd row)) = false) df).
Proof.
  apply (@model_keeps_missing_values
           (Sample.provider Sample.frame8) (Sample.statsmodels 0.01)
           (Sample.session "1299.HK" 10)
           (dropna (closes Sample.frame8)) (closes Sample.frame8) (5, 0, 0));
    vm_compute; left; reflexivity.
Defined.

(** The last row of the sample frame is Thursday 2024-01-11: the first
    forecast date is Friday 2024-01-12. *)
Lemma first_forecast_date_by_weekday_witness :
  exists rest,
    outcome (make_forecast_dates (reset_index Sample.frame8) 10)
    = Ok (ymd 2024 1 11 + first_forecast_gap (weekday (ymd 2024 1 11)) :: rest)
    /\ (weekday (ymd 2024 1 11) = 5 \/ weekday (ymd 2024 1 11) = 6 ->
        weekday (ymd 2024 1 11 + first_forecast_gap (weekday (ymd 2024 1 11)))
        = 1).
Proof.
  apply (first_forecast_date_by_weekday Sample.frame8 10 (ymd 2024 1 11)
           eq_refl).
  lia.
Defined.

(** From Friday 2024-01-12 to Monday 2024-01-15. *)
Lemma forecast_dates_skip_only_weekends_witness :
  ymd 2024 1 15 = ymd 2024 1 12 + (if weekday (ymd 2024 1 12) =? 4 then 3 else 1).
Proof.
  apply (forecast_dates_skip_only_weekends Sample.frame8 10
           (next_bdays (ymd 2024 1 11) 10) []
           (tl (tl (next_bdays (ymd 2024 1 11) 10)))
           (ymd 2024 1 12) (ymd 2024 1 15) eq_refl eq_refl).
Defined.

Lemma longer_horizon_extends_dates_witness :
  next_bdays (ymd 2024 1 11) 5
  = firstn (length (next_bdays (ymd 2024 1 11) 5))
           (next_bdays (ymd 2024 1 11) 10).
Proof.
  apply (longer_horizon_extends_dates Sample.frame8 5 10
           (next_bdays (ymd 2024 1 11) 5) (next_bdays (ymd 2024 1 11) 10)
           eq_refl eq_refl).
  lia.
Defined.

Lemma chart_plots_forecast_witness :
  exists df model model_fit fc start predicted,
    @fetched (Sample.provider Sample.frame8) (Sample.session "1299.HK" 10)
      = Ok df
    /\ @ARIMA (Sample.statsmodels 0.01) (closes df) (5, 0, 0) = Ok model
    /\ fit model = Ok model_fit
    /\ forecast model_fit 10 = Ok fc
    /\ last_date df = Some start
    /\ forecast_trace
         (build_figure "1299.HK" (reset_index Sample.frame8)
            (next_bdays (ymd 2024 1 11) 10)
            (combine (seq 8 10) (repeat 108%float 10)))
       = Some predicted
    /\ y predicted = values fc
    /\ outcome (make_forecast_dates (reset_index df) 10) = Ok (x predicted)
    /\ x predicted = next_bdays start 10
    /\ length (x predicted) = Z.to_nat 10
    /\ mode predicted = "lines+markers".
Proof.
  apply (@chart_plots_forecast
           (Sample.provider Sample.frame8) (Sample.statsmodels 0.01)
           (Sample.session "1299.HK" 10)
           (build_figure "1299.HK" (reset_index Sample.frame8)
              (next_bdays (ymd 2024 1 11) 10)
              (combine (seq 8 10) (repeat 108%float 10)))).
  vm_compute. left. reflexivity.
Defined.

(** Two days without a closing price: the test is called on no
    observation, and fails in [x.max()]. *)
Lemma all_missing_is_tested_as_empty_witness :
  @check_stationarity (Sample.statsmodels 0.01)
    [(0%nat, nan); (1%nat, nan)]
  = ([call_adfuller []],
     Raise (ValueError
       "zero-size array to reduction operation maximum which has no identity")).
Proof.
  apply (@all_missing_is_tested_as_empty (Sample.statsmodels 0.01)
           [(0%nat, nan); (1%nat, nan)]).
  repeat constructor.
Defined.
